(** * fernandezvara/rest: a shallow embedding of the routing and response layer

    The Go package [rest] is embedded file by file:
    - [unnamed/part_000]: the sentinel errors, [HTTPErrorStatus], [APIEndpoint];
    - [unnamed/part_002]: [LogResponseWriter];
    - [logging.go]: the [Logging] facade (entries are collected in a list);
    - [response.go]: [Response], [ErrorResponse] and the convenience responders;
    - [unnamed/part_001]: the [REST] object and its [log] method;
    - [router.go]: [match], [writeHeaders], the dispatch wrappers, [SetupRouter].

    Collaborators outside the package are modelled by their contract:
    [http.ResponseWriter] is a type class, [regexp.MatchString] and the clock
    are parameters, [http.Header] is a finite map, the JSON encoder renders the
    one struct the package serialises. *)

From Stdlib Require Import ZArith Ascii String List Lia Bool Permutation DecimalString.
From stdpp Require Import base option list sorting gmap strings.

Local Open Scope string_scope.
Local Open Scope list_scope.
Set Warnings "-register-all".

(** ** Go's [int] on a 64-bit platform *)

Module GoInt.

Definition min_int : Z := (- 2 ^ 63)%Z.
Definition max_int : Z := (2 ^ 63 - 1)%Z.

Definition in_range (z : Z) : Prop := (min_int <= z <= max_int)%Z.

(** Two's complement wrap-around of a mathematical integer. *)
Definition wrap (z : Z) : Z := ((z + 2 ^ 63) mod 2 ^ 64 - 2 ^ 63)%Z.

(** [a + b] on [int]. *)
Definition add (a b : Z) : Z := wrap (a + b).

(** The sum of a list of [int]s, added left to right as Go would. *)
Definition sum (l : list Z) : Z := fold_left add l 0%Z.

End GoInt.

(** ** Package [strings] *)

Module strings.

(** [strings.Split(s, sep)] for a one-byte separator (the package only calls
    it with ["/"]): one more part than there are separators in [s]. *)
Fixpoint Split (s : string) (sep : ascii) : list string :=
  match s with
  | EmptyString => [ "" ]
  | String c s' =>
      if Ascii.eqb c sep then "" :: Split s' sep
      else match Split s' sep with
           | part :: parts => String c part :: parts
           | [] => [ String c "" ]
           end
  end.

(** [strings.Join(elems, sep)]. *)
Fixpoint Join (elems : list string) (sep : string) : string :=
  match elems with
  | [] => ""
  | [ e ] => e
  | e :: rest => e +:+ sep +:+ Join rest sep
  end.

End strings.

(** ** Outcomes of Go code that can fault *)

Inductive panic : Type :=
  | IndexOutOfRange (index len : nat)
  | AlreadyRegistered (method path : string).

Inductive outcome (A : Type) : Type :=
  | Returns (a : A)
  | Panics (p : panic).
Arguments Returns {A} a.
Arguments Panics {A} p.

Definition obind {A B} (o : outcome A) (k : A -> outcome B) : outcome B :=
  match o with
  | Returns a => k a
  | Panics p => Panics p
  end.

Notation "x <-! o ; k" := (obind o (fun x => k))
  (at level 100, o at next level, k at level 200, right associativity).

(** ** Go's [error] values

    The five sentinels of part_000 are created once by [errors.New] and are
    compared by identity; any other error value, whatever its text, is
    [OtherError]. *)

Inductive error : Type :=
  | ErrBadRequest
  | ErrUnauthorized
  | ErrNotFound
  | ErrConflict
  | ErrUnprocessableEntity
  | OtherError (text : string).

#[global] Instance error_eq_dec : EqDecision error.
Proof. solve_decision. Defined.

(** The [Error()] method: the text handed to [errors.New]. *)
Definition Error (e : error) : string :=
  match e with
  | ErrBadRequest => "400"
  | ErrUnauthorized => "401"
  | ErrNotFound => "404"
  | ErrConflict => "409"
  | ErrUnprocessableEntity => "422"
  | OtherError text => text
  end.

(** ** Byte slices *)

Abbreviation bytes := (list Byte.byte).

Definition bytes_of (s : string) : bytes := list_byte_of_string s.

(** ** JSON values and their encoding

    The package encodes with [jsoniter.ConfigCompatibleWithStandardLibrary]:
    struct fields in declaration order, map keys sorted, HTML-sensitive
    characters escaped, [Encode] ends the value with a newline. *)

Module json.

Inductive value : Type :=
  | Null
  | Bool (b : bool)
  | Int (n : Z)
  | Str (s : string)
  | Arr (items : list value)
  | Obj (fields : list (string * value)).

Definition quote : string := String (ascii_of_nat 34) "".

Definition hexdigit (n : nat) : ascii :=
  if (n <? 10)%nat then ascii_of_nat (48 + n) else ascii_of_nat (87 + n).

(** One byte of a string literal. Bytes from 0x80 up (UTF-8 sequences) are
    copied. *)
Definition escape (c : ascii) : string :=
  let n := nat_of_ascii c in
  if (n =? 34)%nat then "\" +:+ quote
  else if (n =? 92)%nat then "\\"
  else if (n =? 10)%nat then "\n"
  else if (n =? 13)%nat then "\r"
  else if (n =? 9)%nat then "\t"
  else if (n <? 32)%nat || (n =? 60)%nat || (n =? 62)%nat || (n =? 38)%nat then
    "\u00" +:+ String (hexdigit (n / 16)) (String (hexdigit (n mod 16)) "")
  else String c "".

Fixpoint escapes (s : string) : string :=
  match s with
  | EmptyString => ""
  | String c s' => escape c +:+ escapes s'
  end.

Definition literal (s : string) : string := quote +:+ escapes s +:+ quote.

Definition decimal (n : Z) : string :=
  DecimalString.NilZero.string_of_int (Z.to_int n).

Fixpoint render (v : value) : string :=
  match v with
  | Null => "null"
  | Bool true => "true"
  | Bool false => "false"
  | Int n => decimal n
  | Str s => literal s
  | Arr items =>
      "[" +:+ strings.Join (List.map render items) "," +:+ "]"
  | Obj fields =>
      "{" +:+ strings.Join
                (List.map (fun kv => literal (fst kv) +:+ ":" +:+ render (snd kv)) fields)
                "," +:+ "}"
  end.

(** What [json.NewEncoder(w).Encode(v)] hands to [w.Write]. *)
Definition encode (v : value) : bytes := bytes_of (render v +:+ String (ascii_of_nat 10) "").




End json.

(** ** Package [net/http] *)

Module http.

Definition StatusOK : Z := 200.
Definition StatusBadRequest : Z := 400.
Definition StatusUnauthorized : Z := 401.
Definition StatusForbidden : Z := 403.
Definition StatusNotFound : Z := 404.
Definition StatusMethodNotAllowed : Z := 405.
Definition StatusConflict : Z := 409.
Definition StatusUnprocessableEntity : Z := 422.
Definition StatusInternalServerError : Z := 500.

(** [http.StatusText]: the reason phrase of a status code, empty when the code
    is unknown. *)
Definition StatusText (code : Z) : string :=
  match code with
  | 100 => "Continue" | 101 => "Switching Protocols" | 102 => "Processing"
  | 103 => "Early Hints"
  | 200 => "OK" | 201 => "Created" | 202 => "Accepted"
  | 203 => "Non-Authoritative Information" | 204 => "No Content"
  | 205 => "Reset Content" | 206 => "Partial Content" | 207 => "Multi-Status"
  | 208 => "Already Reported" | 226 => "IM Used"
  | 300 => "Multiple Choices" | 301 => "Moved Permanently" | 302 => "Found"
  | 303 => "See Other" | 304 => "Not Modified" | 305 => "Use Proxy"
  | 307 => "Temporary Redirect" | 308 => "Permanent Redirect"
  | 400 => "Bad Request" | 401 => "Unauthorized" | 402 => "Payment Required"
  | 403 => "Forbidden" | 404 => "Not Found" | 405 => "Method Not Allowed"
  | 406 => "Not Acceptable" | 407 => "Proxy Authentication Required"
  | 408 => "Request Timeout" | 409 => "Conflict" | 410 => "Gone"
  | 411 => "Length Required" | 412 => "Precondition Failed"
  | 413 => "Request Entity Too Large" | 414 => "Request URI Too Long"
  | 415 => "Unsupported Media Type" | 416 => "Requested Range Not Satisfiable"
  | 417 => "Expectation Failed" | 418 => "I'm a teapot"
  | 421 => "Misdirected Request" | 422 => "Unprocessable Entity"
  | 423 => "Locked" | 424 => "Failed Dependency" | 425 => "Too Early"
  | 426 => "Upgrade Required" | 428 => "Precondition Required"
  | 429 => "Too Many Requests" | 431 => "Request Header Fields Too Large"
  | 451 => "Unavailable For Legal Reasons"
  | 500 => "Internal Server Error" | 501 => "Not Implemented"
  | 502 => "Bad Gateway" | 503 => "Service Unavailable"
  | 504 => "Gateway Timeout" | 505 => "HTTP Version Not Supported"
  | 506 => "Variant Also Negotiates" | 507 => "Insufficient Storage"
  | 508 => "Loop Detected" | 510 => "Not Extended"
  | 511 => "Network Authentication Required"
  | _ => ""
  end%Z.

(** [http.Header] is a [map[string][]string]. The keys the package uses are
    written in canonical form already, save [X-XSS-Protection]; keys are kept
    as written. *)
Abbreviation Header := (gmap string (list string)).

Definition Set_ (h : Header) (key value : string) : Header :=
  <[key := [value]]> h.

Definition Add (h : Header) (key value : string) : Header :=
  <[key := default [] (h !! key) ++ [value]]> h.

Definition Values (h : Header) (key : string) : list string :=
  default [] (h !! key).

Definition Get (h : Header) (key : string) : string :=
  match Values h key with
  | v :: _ => v
  | [] => ""
  end.

(** The request fields the package reads. *)
Record Request : Type := {
  Method : string;
  URL_Path : string;
  RequestURI : string;
  RemoteAddr : string
}.

(** The [http.ResponseWriter] interface. [Header()] returns the writer's
    header map, which the caller mutates in place: [withHeader] stores the
    mutated map back. *)
Class ResponseWriter (W : Type) : Type := {
  GetHeader : W -> Header;
  withHeader : W -> Header -> W;
  Write : W -> bytes -> W * (Z * option error);
  WriteHeader : W -> Z -> W
}.

(** [w.Header().Set(k, v)] and [w.Header().Add(k, v)]. *)
Definition HeaderSet `{ResponseWriter W} (w : W) (key value : string) : W :=
  withHeader w (Set_ (GetHeader w) key value).

Definition HeaderAdd `{ResponseWriter W} (w : W) (key value : string) : W :=
  withHeader w (Add (GetHeader w) key value).

End http.

(** ** A recording response writer

    The writer the package is exercised with, after
    [httptest.ResponseRecorder]: the first [WriteHeader] fixes the status code
    and takes a snapshot of the header map, later ones are ignored; a [Write]
    with no header written yet writes status 200 first (content sniffing on
    that implicit header is left out); the body buffer accepts every byte. *)

Module httptest.

Record ResponseRecorder : Type := {
  HeaderMap : http.Header;
  wroteHeader : bool;
  Code : Z;
  snapHeader : http.Header;
  Body : bytes
}.

Definition NewRecorder : ResponseRecorder :=
  {| HeaderMap := ∅; wroteHeader := false; Code := 200; snapHeader := ∅; Body := [] |}.

Definition WriteHeader (rw : ResponseRecorder) (code : Z) : ResponseRecorder :=
  if wroteHeader rw then rw
  else {| HeaderMap := HeaderMap rw; wroteHeader := true; Code := code;
          snapHeader := HeaderMap rw; Body := Body rw |}.

Definition Write (rw : ResponseRecorder) (buf : bytes)
  : ResponseRecorder * (Z * option error) :=
  let rw := WriteHeader rw 200 in
  ({| HeaderMap := HeaderMap rw; wroteHeader := wroteHeader rw; Code := Code rw;
      snapHeader := snapHeader rw; Body := Body rw ++ buf |},
   (Z.of_nat (length buf), None)).

(** The headers of the response as sent: the snapshot once the header is
    written. *)
Definition Result (rw : ResponseRecorder) : http.Header :=
  if wroteHeader rw then snapHeader rw else HeaderMap rw.

#[global] Instance recorder_writer : http.ResponseWriter ResponseRecorder := {
  http.GetHeader rw := HeaderMap rw;
  http.withHeader rw h :=
    {| HeaderMap := h; wroteHeader := wroteHeader rw; Code := Code rw;
       snapHeader := snapHeader rw; Body := Body rw |};
  http.Write := Write;
  http.WriteHeader := WriteHeader
}.

End httptest.

(** ** unnamed/part_000: the error body and the endpoint descriptor *)

Record HTTPErrorStatus : Type := {
  Code : Z;
  Message : string;
  Reason : string;
  ValidationErrors : gmap string string
}.

(** The zero value of the struct ([var err HTTPErrorStatus]). *)
Definition zeroHTTPErrorStatus : HTTPErrorStatus :=
  {| Code := 0; Message := ""; Reason := ""; ValidationErrors := ∅ |}.

Definition key_le (a b : string * string) : Prop := String.leb (fst a) (fst b) = true.

#[global] Instance key_le_dec a b : Decision (key_le a b).
Proof. unfold key_le. solve_decision. Defined.

(** The entries of a [map[string]string] in the order the encoder writes
    them: sorted by key. *)
Definition sortedEntries (m : gmap string string) : list (string * json.value) :=
  List.map (fun kv => (fst kv, json.Str (snd kv))) (merge_sort key_le (map_to_list m)).

(** The JSON value of an [HTTPErrorStatus], field by field after the struct
    tags: [code] and [message] always, [reason] and [validation_errors] under
    [omitempty]. *)
Definition marshalHTTPErrorStatus (e : HTTPErrorStatus) : json.value :=
  json.Obj
    ([ ("code", json.Int (Code e)); ("message", json.Str (Message e)) ]
     ++ (if decide (Reason e = "") then [] else [ ("reason", json.Str (Reason e)) ])
     ++ (if decide (size (ValidationErrors e) = 0%nat) then []
         else [ ("validation_errors", json.Obj (sortedEntries (ValidationErrors e))) ])).

(** [json.NewEncoder(w).Encode(v)]: one [Write] of the encoding; the error of
    the write is dropped by every caller in the package. *)
Definition Encode `{http.ResponseWriter W} (w : W) (v : json.value) : W :=
  fst (http.Write w (json.encode v)).

(** [httprouter.Params]: the named path parameters of a request. *)
Abbreviation Params := (list (string * string)).

(** [APIHandler]: a handler works on any response writer through the
    interface. *)
Definition APIHandler : Type :=
  forall (W : Type), http.ResponseWriter W -> W -> http.Request -> Params -> W.

Abbreviation APIMatcher := (list string).

Record APIEndpoint : Type := {
  Handler : APIHandler;
  Matcher : APIMatcher
}.

(** ** unnamed/part_002: the instrumented response writer *)

Module logwriter.

Section LogResponseWriter.
Context {W : Type} `{http.ResponseWriter W}.

Record LogResponseWriter : Type := {
  ResponseWriter : W;
  status : Z;
  size : Z
}.

Definition NewLogResponseWriter (w : W) : LogResponseWriter :=
  {| ResponseWriter := w; status := 0; size := 0 |}.

Definition Status (w : LogResponseWriter) : Z := status w.

Definition Size (w : LogResponseWriter) : Z := size w.

Definition Write (w : LogResponseWriter) (p : bytes)
  : LogResponseWriter * (Z * option error) :=
  let '(inner, (written, err)) := http.Write (ResponseWriter w) p in
  ({| ResponseWriter := inner; status := status w;
      size := GoInt.add (size w) written |},
   (written, err)).

Definition WriteHeader (w : LogResponseWriter) (statusCode : Z) : LogResponseWriter :=
  {| ResponseWriter := http.WriteHeader (ResponseWriter w) statusCode;
     status := statusCode; size := size w |}.

(** The embedded [http.ResponseWriter] promotes [Header()]. *)
#[global] Instance log_writer : http.ResponseWriter LogResponseWriter := {
  http.GetHeader w := http.GetHeader (ResponseWriter w);
  http.withHeader w h :=
    {| ResponseWriter := http.withHeader (ResponseWriter w) h;
       status := status w; size := size w |};
  http.Write := Write;
  http.WriteHeader := WriteHeader
}.

End LogResponseWriter.

Arguments LogResponseWriter W : clear implicits.

End logwriter.

(** ** logging.go: the logging facade

    [Logging] wraps a zap logger; the model keeps the entries handed to it, in
    order. What zap then does with an entry (encoding, sampling, output paths)
    is the collaborator's business. *)

Module zap.

Inductive Level : Type := DebugLevel | InfoLevel | ErrorLevel.

Inductive Field : Type :=
  | String_ (key val : string)
  | Int (key : string) (val : Z)
  | Duration (key : string) (val : Z).

Record Entry : Type := {
  level : Level;
  message : string;
  fields : list Field
}.

End zap.

Record Logging : Type := {
  debug : bool;
  logger : list zap.Entry
}.

Definition emit (l : Logging) (e : zap.Entry) : Logging :=
  {| debug := debug l; logger := logger l ++ [ e ] |}.

Module Logging_.

Definition Error (l : Logging) (source msg : string) (fields : list zap.Field) : Logging :=
  emit l {| zap.level := zap.ErrorLevel; zap.message := msg;
            zap.fields := fields ++ [ zap.String_ "source" source ] |}.

Definition Info (l : Logging) (source msg : string) (fields : list zap.Field) : Logging :=
  emit l {| zap.level := zap.InfoLevel; zap.message := msg;
            zap.fields := fields ++ [ zap.String_ "source" source ] |}.

(** Debug entries pass the level filter only when the logger was built with
    [debug]. *)
Definition Debug (l : Logging) (source msg : string) (fields : list zap.Field) : Logging :=
  if debug l then
    emit l {| zap.level := zap.DebugLevel; zap.message := msg;
              zap.fields := fields ++ [ zap.String_ "source" source ] |}
  else l.

End Logging_.

(** ** response.go *)

(** What [fmt.Printf] puts on standard output. *)
Inductive printed : Type :=
  | UnknownErr (err : error).

Section Responders.
Context {W : Type} `{http.ResponseWriter W}.

(** ErrorResponse returns a formatted error *)
Definition ErrorResponse (w : W) (status : Z) (reason : string) : W * Z :=
  let w := http.WriteHeader w status in
  let err := zeroHTTPErrorStatus in
  let err := {| Code := status; Message := Message err; Reason := Reason err;
                ValidationErrors := ValidationErrors err |} in
  let err := {| Code := Code err; Message := http.StatusText status; Reason := Reason err;
                ValidationErrors := ValidationErrors err |} in
  let err :=
    if decide (reason <> "") then
      {| Code := Code err; Message := Message err; Reason := reason;
         ValidationErrors := ValidationErrors err |}
    else err in
  let w := Encode w (marshalHTTPErrorStatus err) in
  (w, status).

(** Response is a default func to return data *)
Definition Response (w : W) (response : option json.value) (err : option error)
    (desiredStatus : Z) (location : string) : W * Z * list printed :=
  let w := http.HeaderSet w "Content-Type" "application/json; charset=utf-8" in
  let w := http.HeaderSet w "Accept" "application/json" in
  match err with
  | None =>
      let w := if decide (location <> "") then http.HeaderSet w "Location" location else w in
      let w := http.WriteHeader w desiredStatus in
      let w := match response with
               | Some v => Encode w v
               | None => w
               end in
      (w, desiredStatus, [])
  | Some ErrConflict => (ErrorResponse w http.StatusConflict "", [])
  | Some ErrBadRequest => (ErrorResponse w http.StatusBadRequest "", [])
  | Some ErrUnauthorized => (ErrorResponse w http.StatusUnauthorized "", [])
  | Some e =>
      (ErrorResponse w http.StatusInternalServerError (Error e), [ UnknownErr e ])
  end.

(** ResponseErr is the Response where a straight error cannot be assigned. *)
Definition ResponseErr (w : W) (err : option error) : W * Z * list printed :=
  Response w None err http.StatusOK "".

(** NotFound is a generic 404 response *)
Definition NotFound (w : W) (r : http.Request) : W :=
  fst (ErrorResponse w http.StatusNotFound "").

(** NotAllowed is a generic 405 response *)
Definition NotAllowed (w : W) (r : http.Request) : W :=
  fst (ErrorResponse w http.StatusMethodNotAllowed "").

(** BadRequest is a generic 400 response *)
Definition BadRequest (w : W) (r : http.Request) (reason : string) : W :=
  fst (ErrorResponse w http.StatusBadRequest reason).

(** BadRequestValidation is a generic 400 response describing the validation
    errors if any *)
Definition BadRequestValidation (w : W) (r : http.Request) (reason : string)
    (validationErrors : gmap string string) : W :=
  let status := http.StatusBadRequest in
  let w := http.WriteHeader w status in
  let errResponse := zeroHTTPErrorStatus in
  let errResponse :=
    {| Code := status; Message := Message errResponse; Reason := Reason errResponse;
       ValidationErrors := ValidationErrors errResponse |} in
  let errResponse :=
    {| Code := Code errResponse; Message := http.StatusText status;
       Reason := Reason errResponse;
       ValidationErrors := ValidationErrors errResponse |} in
  let errResponse :=
    if decide (reason <> "") then
      {| Code := Code errResponse; Message := Message errResponse; Reason := reason;
         ValidationErrors := ValidationErrors errResponse |}
    else errResponse in
  let errResponse :=
    if decide (0 < size validationErrors)%nat then
      {| Code := Code errResponse; Message := Message errResponse;
         Reason := Reason errResponse; ValidationErrors := validationErrors |}
    else errResponse in
  Encode w (marshalHTTPErrorStatus errResponse).

(** Forbidden is a generic 403 response *)
Definition Forbidden (w : W) (r : http.Request) (reason : string) : W :=
  fst (ErrorResponse w http.StatusForbidden reason).

(** Unauthorized is a generic 401 response *)
Definition Unauthorized (w : W) (r : http.Request) : W :=
  fst (ErrorResponse w http.StatusUnauthorized "").

End Responders.

(** ** The router collaborator ([httprouter])

    The handler table maps (method, path) to the closure installed for it. A
    closure is kept as the variables it captured. [Handle] refuses a second
    handle for the same method and path with a panic; the router's own
    checks of the path syntax are not modelled. *)

Inductive Handle : Type :=
  | routeWrapper (localMethod localRoute : string)
                 (localFunction : APIHandler) (localMatcher : APIMatcher)
  | optionsWrapper (localRoute localMethod : string).

Inductive HandlerFunc : Type :=
  | notFoundLogged
  | methodNotAllowedLogged.

Module httprouter.

Record Router : Type := {
  handles : gmap (string * string) Handle;
  NotFound : option HandlerFunc;
  MethodNotAllowed : option HandlerFunc
}.

Definition New : Router :=
  {| handles := ∅; NotFound := None; MethodNotAllowed := None |}.

Definition Handle (r : Router) (method path : string) (handle : Handle) : outcome Router :=
  match handles r !! (method, path) with
  | Some _ => Panics (AlreadyRegistered method path)
  | None =>
      Returns {| handles := <[(method, path) := handle]> (handles r);
                 NotFound := NotFound r; MethodNotAllowed := MethodNotAllowed r |}
  end.

End httprouter.

(** ** unnamed/part_001: the REST object *)

Record REST : Type := {
  router : option httprouter.Router;
  ipPort : string;
  optionsMappings : gmap string (list string);
  rlogger : Logging;
  tlsCer : bytes;
  tlsKey : bytes;
  tlsCACert : bytes;
  tls : bool;
  requireClientCert : bool
}.

(** New returns a REST struct that holds the interactions for the API *)
Definition New (ipPort : string) (tlsCertificate tlsKey tlsCACert : bytes)
    (requireClientCert : bool) (logger : Logging) : REST :=
  {| router := None; ipPort := ipPort; optionsMappings := ∅; rlogger := logger;
     tlsCer := tlsCertificate; tlsKey := tlsKey; tlsCACert := tlsCACert;
     tls := false; requireClientCert := requireClientCert |}.

Definition withLogger (rr : REST) (l : Logging) : REST :=
  {| router := router rr; ipPort := ipPort rr; optionsMappings := optionsMappings rr;
     rlogger := l; tlsCer := tlsCer rr; tlsKey := tlsKey rr; tlsCACert := tlsCACert rr;
     tls := tls rr; requireClientCert := requireClientCert rr |}.

Definition withOptionsMappings (rr : REST) (m : gmap string (list string)) : REST :=
  {| router := router rr; ipPort := ipPort rr; optionsMappings := m;
     rlogger := rlogger rr; tlsCer := tlsCer rr; tlsKey := tlsKey rr;
     tlsCACert := tlsCACert rr; tls := tls rr;
     requireClientCert := requireClientCert rr |}.

Definition withRouter (rr : REST) (r : httprouter.Router) : REST :=
  {| router := Some r; ipPort := ipPort rr; optionsMappings := optionsMappings rr;
     rlogger := rlogger rr; tlsCer := tlsCer rr; tlsKey := tlsKey rr;
     tlsCACert := tlsCACert rr; tls := tls rr;
     requireClientCert := requireClientCert rr |}.

(** [rr.log]: one access-log entry, at error or info level. The [route]
    argument is accepted and not logged. *)
Definition log (rr : REST) (isErr : bool) (msg method route uri remote : string)
    (httpErrorCode size duration : Z) : REST :=
  let fields :=
    [ zap.String_ "method" method; zap.String_ "uri" uri; zap.String_ "remote" remote;
      zap.Int "code" httpErrorCode; zap.Int "size" size;
      zap.Duration "duration" duration ] in
  if isErr then withLogger rr (Logging_.Error (rlogger rr) "rest" msg fields)
  else withLogger rr (Logging_.Info (rlogger rr) "rest" msg fields).

(** ** router.go *)


Abbreviation Routes := (list (string * list (string * APIEndpoint))).


(** Folding a fallible step over a list, left to right. *)
Fixpoint forEach {A S : Type} (step : S -> A -> outcome S) (l : list A) (s : S)
  : outcome S :=
  match l with
  | [] => Returns s
  | a :: rest => s' <-! step s a; forEach step rest s'
  end.

Section Router.

(** [regexp.MatchString(pattern, s)]: whether [s] contains a match of
    [pattern], and the error of compiling [pattern]. *)
Variable MatchString : string -> string -> bool * option error.

(** The body of the loop of [match], from index [i] on. Next to the result it
    returns the calls made to [regexp.MatchString], in order. *)
Fixpoint matchFrom (routeParts : list string) (i : nat) (matcher : APIMatcher)
  : outcome bool * list (string * string) :=
  match matcher with
  | [] => (Returns true, [])
  | m :: rest =>
      if decide (m <> "" /\ m <> ".*") then
        match routeParts !! (i + 1)%nat with
        | None => (Panics (IndexOutOfRange (i + 1) (length routeParts)), [])
        | Some part =>
            let '(matched, err) := MatchString m part in
            if decide (err <> None \/ matched = false) then (Returns false, [ (m, part) ])
            else
              let '(res, calls) := matchFrom routeParts (S i) rest in
              (res, (m, part) :: calls)
        end
      else matchFrom routeParts (S i) rest
  end.

(** [match] with the trace of its regular-expression calls. *)
Definition matchTraced (route : string) (matcher : APIMatcher) (r : http.Request)
  : outcome bool * list (string * string) :=
  if decide (length matcher = 0%nat) then (Returns true, [])
  else
    let routeParts := strings.Split (http.URL_Path r) "/" in
    matchFrom routeParts 0 matcher.

(** match is the local function that verifies *)
Definition match_ (route : string) (matcher : APIMatcher) (r : http.Request)
  : outcome bool :=
  fst (matchTraced route matcher r).

Definition writeHeaders {W : Type} `{http.ResponseWriter W}
    (rr : REST) (w : W) (r : http.Request) (route : string) : W :=
  let w := http.HeaderAdd w "Access-Control-Allow-Origin" "*" in
  let w := http.HeaderAdd w "Access-Control-Allow-Headers"
             "Origin, X-Requested-With, Content-Type, Accept, X-Session-Token" in
  let w := http.HeaderAdd w "Access-Control-Allow-Methods"
             ("OPTIONS, " +:+ strings.Join (default [] (optionsMappings rr !! route)) ", ") in
  let w := http.HeaderAdd w "X-Content-Type-Options" "nosniff" in
  let w := http.HeaderAdd w "X-Frame-Options" "DENY" in
  let w := http.HeaderAdd w "X-XSS-Protection" "1; mode=block" in
  w.

Section Wrappers.
Context {W : Type} `{http.ResponseWriter W}.

(** [if rr.tls { w.Header().Add("Strict-Transport-Security", ...) }] *)
Definition addHSTS (rr : REST) (w : W) : W :=
  if tls rr then
    http.HeaderAdd w "Strict-Transport-Security" "max-age=31536000; includeSubDomains"
  else w.

(** The dispatch wrapper of a registered route. [elapsed] is what
    [time.Since(now)] reads when the access-log entry is written. [ww] wraps
    [w] itself, so the headers written through [w] are those of [ww]. *)
Definition wrapper (rr : REST) (localMethod localRoute : string)
    (localFunction : APIHandler) (localMatcher : APIMatcher)
    (w : W) (r : http.Request) (ps : Params) (elapsed : Z) : outcome (W * REST) :=
  let w := addHSTS rr w in
  matched <-! match_ localRoute localMatcher r;
  if matched then
    let ww := logwriter.NewLogResponseWriter (writeHeaders rr w r localRoute) in
    let ww := localFunction _ _ ww r ps in
    let rr := log rr false "hit" localMethod localRoute (http.RequestURI r)
                (http.RemoteAddr r) (logwriter.Status ww) (logwriter.Size ww) elapsed in
    Returns (logwriter.ResponseWriter ww, rr)
  else
    let w := BadRequest w r "route does not match" in
    let rr := log rr true "hit" localMethod localRoute (http.RequestURI r)
                (http.RemoteAddr r) http.StatusBadRequest 0 elapsed in
    Returns (w, rr).

(** The synthesized OPTIONS handler of a route. *)
Definition optionsHandler (rr : REST) (localRoute localMethod : string)
    (w : W) (r : http.Request) (ps : Params) (elapsed : Z) : W * REST :=
  let w := addHSTS rr w in
  let ww := logwriter.NewLogResponseWriter w in
  let ww := writeHeaders rr ww r localRoute in
  let ww := logwriter.WriteHeader ww http.StatusOK in
  let rr := log rr false "hit" localMethod localRoute (http.RequestURI r)
              (http.RemoteAddr r) (logwriter.Status ww) (logwriter.Size ww) elapsed in
  (logwriter.ResponseWriter ww, rr).

(** Running an installed handle on a request. *)
Definition serve (rr : REST) (h : Handle) (w : W) (r : http.Request) (ps : Params)
    (elapsed : Z) : outcome (W * REST) :=
  match h with
  | routeWrapper localMethod localRoute localFunction localMatcher =>
      wrapper rr localMethod localRoute localFunction localMatcher w r ps elapsed
  | optionsWrapper localRoute localMethod =>
      Returns (optionsHandler rr localRoute localMethod w r ps elapsed)
  end.

(** The not-found and method-not-allowed handlers of the router. *)
Definition serveFallback (rr : REST) (h : HandlerFunc) (w : W) (r : http.Request)
    (elapsed : Z) : W * REST :=
  match h with
  | notFoundLogged =>
      let w := fst (ErrorResponse w http.StatusNotFound "") in
      (w, log rr false "hit" (http.Method r) (http.RequestURI r) (http.RequestURI r)
            (http.RemoteAddr r) http.StatusNotFound 0 elapsed)
  | methodNotAllowedLogged =>
      let w := fst (ErrorResponse w http.StatusMethodNotAllowed "") in
      (w, log rr false "hit" (http.Method r) (http.RequestURI r) (http.RequestURI r)
            (http.RemoteAddr r) http.StatusMethodNotAllowed 0 elapsed)
  end.

End Wrappers.

End Router.

(** The first loop of [SetupRouter]: the methods registered for each route,
    in the order the routes map is visited. *)
Definition addMapping (om : gmap string (list string)) (route method : string)
  : gmap string (list string) :=
  match om !! route with
  | Some methods => <[route := methods ++ [ method ]]> om
  | None => <[route := [ method ]]> om
  end.

Definition buildOptionsMappings (routes : Routes) : gmap string (list string) :=
  fold_left
    (fun om entry =>
       fold_left (fun om mapping => addMapping om (fst mapping) (fst entry)) (snd entry) om)
    routes ∅.

(** The body of the second loop: install the wrapper of one route and log
    it. *)
Definition installRoute (method : string) (st : httprouter.Router * Logging)
    (mapping : string * APIEndpoint) : outcome (httprouter.Router * Logging) :=
  let route := fst mapping in
  let endpoint := snd mapping in
  let localMethod := method in
  let localRoute := route in
  let localFunction := Handler endpoint in
  let localMatcher := Matcher endpoint in
  router <-! httprouter.Handle (fst st) method route
               (routeWrapper localMethod localRoute localFunction localMatcher);
  Returns (router,
           Logging_.Info (snd st) "rest" "HTTP route added"
             [ zap.String_ "method" localMethod; zap.String_ "route" localRoute;
               zap.String_ "matchers" (strings.Join localMatcher ",") ]).

(** The body of the third loop: install the OPTIONS handler of one route and
    log it. *)
Definition installOptions (st : httprouter.Router * Logging) (route : string)
  : outcome (httprouter.Router * Logging) :=
  let localRoute := route in
  let localMethod := "OPTIONS" in
  router <-! httprouter.Handle (fst st) localMethod route
               (optionsWrapper localRoute localMethod);
  Returns (router,
           Logging_.Info (snd st) "rest" "HTTP route added"
             [ zap.String_ "method" localMethod; zap.String_ "route" localRoute ]).

(** SetupRouter builds a router for the REST API endpoints. [routes] lists
    the routes map in the order it is ranged over; the routes of
    [optionsMappings] are visited in the order of [map_to_list]. Go leaves
    both orders open. *)
Definition SetupRouter (rr : REST) (routes : Routes) : outcome REST :=
  let rr := withOptionsMappings rr (buildOptionsMappings routes) in
  st <-! forEach (fun st entry => forEach (installRoute (fst entry)) (snd entry) st)
           routes (httprouter.New, rlogger rr);
  st <-! forEach installOptions (List.map fst (map_to_list (optionsMappings rr))) st;
  let router :=
    {| httprouter.handles := httprouter.handles (fst st);
       httprouter.NotFound := Some notFoundLogged;
       httprouter.MethodNotAllowed := Some methodNotAllowedLogged |} in
  Returns (withRouter (withLogger rr (snd st)) router).

(** A regular-expression engine for patterns without metacharacters: such a
    pattern matches the strings that contain it. Used to run the model on
    concrete requests. *)
Fixpoint contains (s pattern : string) : bool :=
  String.prefix pattern s
  || match s with
     | EmptyString => false
     | String _ s' => contains s' pattern
     end.

Definition literalMatchString (pattern s : string) : bool * option error :=
  (contains s pattern, None).

(** ** Vocabulary of the properties *)

(** The status each sentinel error is named after (the text it is created
    with in part_000). *)
Definition sentinelStatus (e : error) : option Z :=
  match e with
  | ErrBadRequest => Some 400%Z
  | ErrUnauthorized => Some 401%Z
  | ErrNotFound => Some 404%Z
  | ErrConflict => Some 409%Z
  | ErrUnprocessableEntity => Some 422%Z
  | OtherError _ => None
  end.

(** The errors that have a case of their own in the [switch] of [Response]. *)
Definition recognized (e : error) : Prop :=
  e = ErrConflict \/ e = ErrBadRequest \/ e = ErrUnauthorized.

(** The standard error envelope of a status: canonical text, no reason, no
    validation errors. *)
Definition standardEnvelope (status : Z) : json.value :=
  json.Obj [ ("code", json.Int status); ("message", json.Str (http.StatusText status)) ].

(** The envelope of a status with a reason. *)
Definition reasonEnvelope (status : Z) (reason : string) : json.value :=
  json.Obj [ ("code", json.Int status); ("message", json.Str (http.StatusText status));
             ("reason", json.Str reason) ].

(** A pattern that [match] accepts without calling the regular-expression
    engine. *)
Definition acceptsAnything (m : string) : Prop := m = "" \/ m = ".*".

(** The segments of a request path: the parts after the first [/]. *)
Definition segments (r : http.Request) : list string :=
  tail (strings.Split (http.URL_Path r) "/").

(** A call of [regexp.MatchString] passes when it reports a match and no
    error. *)
Definition passes (MatchString : string -> string -> bool * option error)
    (call : string * string) : Prop :=
  MatchString (fst call) (snd call) = (true, None).

(** The calls [match] has to make for a matcher list: each pattern that is
    neither empty nor [.*], with the segment at its position. *)
Fixpoint requiredCalls (matcher : APIMatcher) (segs : list string)
  : list (string * string) :=
  match matcher, segs with
  | m :: matcher', s :: segs' =>
      if decide (m <> "" /\ m <> ".*") then (m, s) :: requiredCalls matcher' segs'
      else requiredCalls matcher' segs'
  | _, _ => []
  end.

(** The calls a client makes on a response writer. *)
Inductive call : Type :=
  | CallWrite (p : bytes)
  | CallWriteHeader (statusCode : Z).

(** Running a sequence of calls on a writer: the writer afterwards and what
    each [Write] returned. *)
Fixpoint runCalls {W : Type} `{http.ResponseWriter W} (w : W) (calls : list call)
  : W * list (Z * option error) :=
  match calls with
  | [] => (w, [])
  | CallWrite p :: rest =>
      let '(w', ret) := http.Write w p in
      let '(w'', rets) := runCalls w' rest in
      (w'', ret :: rets)
  | CallWriteHeader statusCode :: rest => runCalls (http.WriteHeader w statusCode) rest
  end.

(** The argument of the most recent [WriteHeader] call, 0 when there is
    none. *)
Fixpoint lastStatus (calls : list call) (current : Z) : Z :=
  match calls with
  | [] => current
  | CallWrite _ :: rest => lastStatus rest current
  | CallWriteHeader statusCode :: rest => lastStatus rest statusCode
  end.

(** The mathematical sum of the byte counts of a list of [Write] results. *)
Definition totalWritten (rets : list (Z * option error)) : Z :=
  fold_right Z.add 0%Z (List.map fst rets).

(** The (method, route) pairs of a routes map, in the order they are
    visited. *)
Definition registered (routes : Routes) : list (string * string * APIEndpoint) :=
  flat_map (fun entry => List.map (fun mapping => (fst entry, fst mapping, snd mapping))
                                  (snd entry)) routes.

(** The methods under which a route is registered, in the order of the routes
    map. *)
Definition methodsOf (routes : Routes) (route : string) : list string :=
  List.map (fun t => fst (fst t))
    (List.filter (fun t => String.eqb (snd (fst t)) route) (registered routes)).

(** A request-time state of the server object: [Start] may have
    switched [tls] on and the log may have grown, the tables are those
    [SetupRouter] built. *)
Definition sameTables (rr rr' : REST) : Prop :=
  optionsMappings rr' = optionsMappings rr /\ router rr' = router rr.

#[global] Instance passes_dec MatchString call : Decision (passes MatchString call).
Proof. unfold passes. solve_decision. Defined.

(** Conjunctive evaluation with short circuit, as section 4.1 words it: the
    calls are made in order, the first one that does not pass ends the
    evaluation with a no-match, and the result is a match when all pass. *)
Fixpoint shortCircuit (MatchString : string -> string -> bool * option error)
    (calls : list (string * string)) : bool * list (string * string) :=
  match calls with
  | [] => (true, [])
  | c :: rest =>
      if decide (passes MatchString c) then
        let '(result, made) := shortCircuit MatchString rest in (result, c :: made)
      else (false, [ c ])
  end.

(** A small route table to run the model on: one handler under GET and PUT
    for the same route. *)
Definition sampleHandler : APIHandler :=
  fun W _ w r ps => fst (http.Write (http.WriteHeader w 200) (bytes_of "ok")).

Definition sampleEndpoint : APIEndpoint :=
  {| Handler := sampleHandler; Matcher := [ "items"; "" ] |}.

Definition sampleRoutes : Routes :=
  [ ("GET", [ ("/items/:id", sampleEndpoint) ]);
    ("PUT", [ ("/items/:id", sampleEndpoint) ]) ].

Definition sampleREST : REST :=
  New ":8080" [] [] [] false {| debug := false; logger := [] |}.

Definition sampleRequest (path : string) : http.Request :=
  {| http.Method := "GET"; http.URL_Path := path; http.RequestURI := path;
     http.RemoteAddr := "192.0.2.1:4000" |}.

(** ** Further parts of the package *)

(** Location returns a location joining strings (unnamed/part_002, second
    file of the part). The variadic arguments are a list. *)
Definition Location (parts : list string) : string := strings.Join parts "/".

(** A byte occurs in a string. *)
Definition hasByte (c : ascii) (s : string) : Prop := In c (list_ascii_of_string s).

(** A handler that makes a sequence of calls on the response writer it is
    given, chosen from the request and its parameters. *)
Definition scriptHandler (script : http.Request -> Params -> list call) : APIHandler :=
  fun W _ w r ps => fst (runCalls w (script r ps)).

(** The payloads of the [Write] calls of a sequence, in order. *)
Fixpoint written (calls : list call) : list bytes :=
  match calls with
  | [] => []
  | CallWrite p :: rest => p :: written rest
  | CallWriteHeader _ :: rest => written rest
  end.

(** The log entry [SetupRouter] writes for an installed route, and for an
    installed OPTIONS handler. *)
Definition routeAdded (t : string * string * APIEndpoint) : zap.Entry :=
  {| zap.level := zap.InfoLevel; zap.message := "HTTP route added";
     zap.fields :=
       [ zap.String_ "method" (fst (fst t)); zap.String_ "route" (snd (fst t));
         zap.String_ "matchers" (strings.Join (Matcher (snd t)) ",");
         zap.String_ "source" "rest" ] |}.

Definition optionsAdded (route : string) : zap.Entry :=
  {| zap.level := zap.InfoLevel; zap.message := "HTTP route added";
     zap.fields :=
       [ zap.String_ "method" "OPTIONS"; zap.String_ "route" route;
         zap.String_ "source" "rest" ] |}.

(** The access-log entry of [rr.log]. *)
Definition hit (level : zap.Level) (method uri remote : string) (code size duration : Z)
  : zap.Entry :=
  {| zap.level := level; zap.message := "hit";
     zap.fields :=
       [ zap.String_ "method" method; zap.String_ "uri" uri;
         zap.String_ "remote" remote; zap.Int "code" code; zap.Int "size" size;
         zap.Duration "duration" duration; zap.String_ "source" "rest" ] |}.

(** The keys [writeHeaders] adds a value to. *)
Definition securityHeaders : list string :=
  [ "Access-Control-Allow-Origin"; "Access-Control-Allow-Headers";
    "Access-Control-Allow-Methods"; "X-Content-Type-Options"; "X-Frame-Options";
    "X-XSS-Protection" ].

(** ** router.go: Start

    The transport is a collaborator: [tls.X509KeyPair] and the two blocking
    [ListenAndServe] calls are parameters, the server and its TLS
    configuration are records of the fields [Start] sets. The error log of
    the server is left out. *)

Module tls.

Inductive ClientAuthType : Type := NoClientCert | RequireAndVerifyClientCert.

Inductive CurveID : Type := CurveP256 | CurveP384 | CurveP521.

Inductive CipherSuite : Type :=
  | TLS_ECDHE_ECDSA_WITH_AES_128_GCM_SHA256
  | TLS_ECDHE_RSA_WITH_AES_128_GCM_SHA256
  | TLS_ECDHE_RSA_WITH_AES_256_GCM_SHA384.

Definition VersionTLS12 : Z := 771.

Record Config (Certificate : Type) : Type := {
  ClientCAs : bytes;
  ClientAuth : ClientAuthType;
  MinVersion : Z;
  CurvePreferences : list CurveID;
  PreferServerCipherSuites : bool;
  CipherSuites : list CipherSuite;
  NextProtos : list string;
  Certificates : list Certificate
}.
Arguments ClientCAs {Certificate} _.
Arguments ClientAuth {Certificate} _.
Arguments MinVersion {Certificate} _.
Arguments CurvePreferences {Certificate} _.
Arguments PreferServerCipherSuites {Certificate} _.
Arguments CipherSuites {Certificate} _.
Arguments NextProtos {Certificate} _.
Arguments Certificates {Certificate} _.

End tls.

Record Server (Certificate : Type) : Type := {
  Addr : string;
  ServerHandler : option httprouter.Router;
  MaxHeaderBytes : Z;
  TLSConfig : option (tls.Config Certificate)
}.
Arguments Addr {Certificate} _.
Arguments ServerHandler {Certificate} _.
Arguments MaxHeaderBytes {Certificate} _.
Arguments TLSConfig {Certificate} _.

Definition withTLS (rr : REST) (on : bool) : REST :=
  {| router := router rr; ipPort := ipPort rr; optionsMappings := optionsMappings rr;
     rlogger := rlogger rr; tlsCer := tlsCer rr; tlsKey := tlsKey rr;
     tlsCACert := tlsCACert rr; tls := on;
     requireClientCert := requireClientCert rr |}.

Section Start.
Variable Certificate : Type.
Variable X509KeyPair : bytes -> bytes -> Certificate + error.
Variable ListenAndServe : Server Certificate -> option error.
Variable ListenAndServeTLS : Server Certificate -> option error.

(** Start runs the REST API blocking execution. It returns the server object
    as it leaves it, the server it configured and the error of the call. *)
Definition Start (rr : REST) : REST * Server Certificate * option error :=
  let httpServer : Server Certificate :=
    {| Addr := ipPort rr; ServerHandler := router rr;
       MaxHeaderBytes := Z.shiftl 1 20; TLSConfig := None |} in
  if ((0 <? length (tlsCer rr)) && (0 <? length (tlsKey rr))
      && (0 <? length (tlsCACert rr)))%nat then
    let tlsConfig : tls.Config Certificate :=
      {| tls.ClientCAs := tlsCACert rr;
         tls.ClientAuth :=
           if requireClientCert rr then tls.RequireAndVerifyClientCert
           else tls.NoClientCert;
         tls.MinVersion := tls.VersionTLS12;
         tls.CurvePreferences := [ tls.CurveP521; tls.CurveP384; tls.CurveP256 ];
         tls.PreferServerCipherSuites := true;
         tls.CipherSuites :=
           [ tls.TLS_ECDHE_ECDSA_WITH_AES_128_GCM_SHA256;
             tls.TLS_ECDHE_RSA_WITH_AES_128_GCM_SHA256;
             tls.TLS_ECDHE_RSA_WITH_AES_256_GCM_SHA384 ];
         tls.NextProtos := [ "h2"; "http/1.1" ];
         tls.Certificates := [] |} in
    let rr := withTLS rr true in
    match X509KeyPair (tlsCer rr) (tlsKey rr) with
    | inr err => (rr, httpServer, Some err)
    | inl certificate =>
        let tlsConfig :=
          {| tls.ClientCAs := tls.ClientCAs tlsConfig;
             tls.ClientAuth := tls.ClientAuth tlsConfig;
             tls.MinVersion := tls.MinVersion tlsConfig;
             tls.CurvePreferences := tls.CurvePreferences tlsConfig;
             tls.PreferServerCipherSuites := tls.PreferServerCipherSuites tlsConfig;
             tls.CipherSuites := tls.CipherSuites tlsConfig;
             tls.NextProtos := tls.NextProtos tlsConfig;
             tls.Certificates := [ certificate ] |} in
        let httpServer :=
          {| Addr := Addr httpServer; ServerHandler := ServerHandler httpServer;
             MaxHeaderBytes := MaxHeaderBytes httpServer;
             TLSConfig := Some tlsConfig |} in
        (rr, httpServer, ListenAndServeTLS httpServer)
    end
  else (rr, httpServer, ListenAndServe httpServer).

End Start.

(** * Properties *)

(** ** Go integers *)

Lemma wrap_in_range z : GoInt.in_range z -> GoInt.wrap z = z.
Proof.
  unfold GoInt.in_range, GoInt.wrap, GoInt.min_int, GoInt.max_int. intros Hz.
  rewrite Z.mod_small; lia.
Qed.

Lemma wrap_add_l a b : GoInt.wrap (GoInt.wrap a + b) = GoInt.wrap (a + b).
Proof.
  unfold GoInt.wrap.
  replace ((a + 2 ^ 63) mod 2 ^ 64 - 2 ^ 63 + b + 2 ^ 63)%Z
    with ((a + 2 ^ 63) mod 2 ^ 64 + b)%Z by lia.
  rewrite Zplus_mod_idemp_l. f_equal. f_equal. lia.
Qed.

Lemma fold_add_wrap l a :
  fold_left GoInt.add l (GoInt.wrap a) = GoInt.wrap (a + fold_right Z.add 0%Z l).
Proof.
  revert a. induction l as [|x l IH]; intros a; simpl.
  - f_equal. lia.
  - unfold GoInt.add at 2. rewrite wrap_add_l, IH. f_equal. lia.
Qed.

Lemma sum_wrap l : GoInt.sum l = GoInt.wrap (fold_right Z.add 0%Z l).
Proof.
  unfold GoInt.sum. change 0%Z with (GoInt.wrap 0) at 1. apply fold_add_wrap.
Qed.

(** ** The instrumented response writer *)

Section LogResponseWriterProperties.
Context {W : Type} `{http.ResponseWriter W}.

(** A wrapped writer and its sink go through the same calls side by side. *)
Lemma runCalls_wrapped (calls : list call) (lw : logwriter.LogResponseWriter W) :
  runCalls lw calls =
    ({| logwriter.ResponseWriter := fst (runCalls (logwriter.ResponseWriter lw) calls);
        logwriter.status := lastStatus calls (logwriter.status lw);
        logwriter.size :=
          fold_left GoInt.add
            (List.map fst (snd (runCalls (logwriter.ResponseWriter lw) calls)))
            (logwriter.size lw) |},
     snd (runCalls (logwriter.ResponseWriter lw) calls)).
Proof.
  revert lw. induction calls as [|c calls IH]; intros lw.
  - destruct lw; reflexivity.
  - destruct c as [p|statusCode]; simpl.
    + unfold logwriter.Write.
      destruct (http.Write (logwriter.ResponseWriter lw) p) as [inner [written err]] eqn:Hw.
      rewrite IH. simpl.
      destruct (runCalls inner calls) as [w'' rets]. reflexivity.
    + rewrite IH. reflexivity.
Qed.

(** C7. Whatever the wrapped sink does, after any sequence of Write and
    WriteHeader calls on a fresh LogResponseWriter: Status() is the argument
    of the most recent WriteHeader (0 if there was none); every Write returned
    the pair the sink returned, the sink having received the same calls;
    Size() is the sum of the byte counts the sink returned, added as Go adds
    ints, which is their exact sum whenever that sum is an int. *)
Theorem C7_log_writer_records (w : W) (calls : list call) :
  let wrapped := runCalls (logwriter.NewLogResponseWriter w) calls in
  let sink := runCalls w calls in
  logwriter.Status (fst wrapped) = lastStatus calls 0
  /\ snd wrapped = snd sink
  /\ logwriter.ResponseWriter (fst wrapped) = fst sink
  /\ logwriter.Size (fst wrapped) = GoInt.sum (List.map fst (snd sink))
  /\ (GoInt.in_range (totalWritten (snd sink)) ->
      logwriter.Size (fst wrapped) = totalWritten (snd sink)).
Proof.
  cbv zeta. rewrite runCalls_wrapped. simpl.
  repeat split.
  intros Hrange. fold (GoInt.sum (List.map fst (snd (runCalls w calls)))).
  rewrite sum_wrap. apply wrap_in_range. exact Hrange.
Qed.

End LogResponseWriterProperties.

(** C7 on a recorder: two writes around a WriteHeader. *)
Lemma C7_log_writer_records_witness :
  let calls := [ CallWrite (bytes_of "ab"); CallWriteHeader 404; CallWrite (bytes_of "c") ] in
  let wrapped := runCalls (logwriter.NewLogResponseWriter httptest.NewRecorder) calls in
  logwriter.Status (fst wrapped) = 404%Z
  /\ snd wrapped = [ (2%Z, None); (1%Z, None) ]
  /\ logwriter.Size (fst wrapped) = 3%Z.
Proof.
  cbv zeta.
  pose proof (C7_log_writer_records httptest.NewRecorder
                [ CallWrite (bytes_of "ab"); CallWriteHeader 404; CallWrite (bytes_of "c") ])
    as (Hstatus & Hrets & _ & _ & Hsize).
  split; [exact Hstatus|]. split; [exact Hrets|].
  apply Hsize. vm_compute. split; discriminate.
Defined.

(** ** The path matcher *)

Lemma Split_nonempty s sep : strings.Split s sep <> [].
Proof.
  destruct s as [|c s]; simpl; [discriminate|].
  destruct (Ascii.eqb c sep); [discriminate|].
  destruct (strings.Split s sep); discriminate.
Qed.

Lemma Split_segments (r : http.Request) :
  exists first, strings.Split (http.URL_Path r) "/" = first :: segments r.
Proof.
  unfold segments. destruct (strings.Split (http.URL_Path r) "/") as [|first rest] eqn:E.
  - exfalso. exact (Split_nonempty _ _ E).
  - exists first. reflexivity.
Qed.

Section MatcherProperties.
Variable MatchString : string -> string -> bool * option error.

Lemma not_passes_iff m part :
  ~ passes MatchString (m, part) <->
  (snd (MatchString m part) <> None \/ fst (MatchString m part) = false).
Proof.
  unfold passes. simpl. destruct (MatchString m part) as [[|] [e|]]; simpl; split;
    intros Hn; try (left; discriminate); try (right; reflexivity);
    try (intros Heq; discriminate).
  - exfalso. apply Hn. reflexivity.
  - destruct Hn as [Hn|Hn]; [congruence|discriminate].
Qed.

(** Patterns that accept anything never reach the engine nor the segment
    list. *)
Lemma matchFrom_wildcards routeParts i matcher :
  Forall acceptsAnything matcher ->
  matchFrom MatchString routeParts i matcher = (Returns true, []).
Proof.
  intros Hall. revert i. induction Hall as [|m matcher Hm _ IH]; intros i; simpl.
  - reflexivity.
  - destruct (decide (m <> "" /\ m <> ".*")) as [[H1 H2]|_].
    + destruct Hm; contradiction.
    + apply IH.
Qed.

(** With a segment for every pattern, the loop is the short-circuit
    evaluation of the required calls. *)
Lemma matchFrom_shortCircuit routeParts matcher i :
  (length matcher <= length (drop (S i) routeParts))%nat ->
  matchFrom MatchString routeParts i matcher =
    (Returns (fst (shortCircuit MatchString (requiredCalls matcher (drop (S i) routeParts)))),
     snd (shortCircuit MatchString (requiredCalls matcher (drop (S i) routeParts)))).
Proof.
  revert i. induction matcher as [|m matcher IH]; intros i Hlen.
  - destruct (drop (S i) routeParts); reflexivity.
  - simpl in Hlen.
    destruct (routeParts !! S i) as [part|] eqn:Hpart.
    2:{ apply lookup_ge_None in Hpart. rewrite drop_ge in Hlen by lia. simpl in Hlen. lia. }
    pose proof (drop_S _ _ _ Hpart) as Hdrop. rewrite Hdrop in Hlen |- *. simpl in Hlen.
    assert (Hrest : (length matcher <= length (drop (S (S i)) routeParts))%nat) by lia.
    specialize (IH (S i) Hrest).
    simpl. replace (i + 1)%nat with (S i) by lia. rewrite Hpart.
    destruct (decide (m <> "" /\ m <> ".*")) as [Hm|Hm]; [|exact IH].
    simpl. destruct (decide (passes MatchString (m, part))) as [Hp|Hp].
    + unfold passes in Hp. simpl in Hp. rewrite Hp.
      destruct (decide (None <> None \/ true = false)) as [[Hc|Hc]|_];
        [congruence|discriminate|].
      rewrite IH.
      destruct (shortCircuit MatchString (requiredCalls matcher (drop (S (S i)) routeParts)));
        reflexivity.
    + apply not_passes_iff in Hp.
      destruct (MatchString m part) as [matched err]. simpl in Hp.
      destruct (decide (err <> None \/ matched = false)) as [_|Hc]; [reflexivity|].
      contradiction.
Qed.

Lemma shortCircuit_true calls :
  fst (shortCircuit MatchString calls) = true <-> Forall (passes MatchString) calls.
Proof.
  induction calls as [|c calls IH]; simpl.
  - split; [constructor|reflexivity].
  - destruct (decide (passes MatchString c)) as [Hp|Hp].
    + destruct (shortCircuit MatchString calls) as [result made]. simpl in *.
      rewrite IH. split; [intros; constructor; assumption|].
      intros Hall. inversion Hall; assumption.
    + simpl. split; [discriminate|]. intros Hall. inversion Hall; contradiction.
Qed.

Lemma shortCircuit_prefix calls :
  snd (shortCircuit MatchString calls) `prefix_of` calls.
Proof.
  induction calls as [|c calls IH]; simpl.
  - reflexivity.
  - destruct (decide (passes MatchString c)) as [Hp|Hp].
    + destruct (shortCircuit MatchString calls) as [result made]. simpl in *.
      apply prefix_cons. exact IH.
    + simpl. exists calls. reflexivity.
Qed.

Lemma shortCircuit_all calls :
  fst (shortCircuit MatchString calls) = true -> snd (shortCircuit MatchString calls) = calls.
Proof.
  induction calls as [|c calls IH]; simpl.
  - reflexivity.
  - destruct (decide (passes MatchString c)) as [Hp|Hp].
    + destruct (shortCircuit MatchString calls) as [result made]. simpl in *.
      intros Ht. f_equal. apply IH. exact Ht.
    + simpl. discriminate.
Qed.

(** A call that does not pass is the last one made, and the result is a
    no-match. *)
Lemma shortCircuit_stops calls before c after :
  snd (shortCircuit MatchString calls) = before ++ c :: after ->
  ~ passes MatchString c ->
  after = [] /\ fst (shortCircuit MatchString calls) = false.
Proof.
  revert before. induction calls as [|c' calls IH]; intros before; simpl.
  - intros Heq. destruct before; discriminate.
  - destruct (decide (passes MatchString c')) as [Hp|Hp].
    + destruct (shortCircuit MatchString calls) as [result made]. simpl in *.
      intros Heq Hc. destruct before as [|b before]; simpl in Heq.
      * injection Heq as -> _. contradiction.
      * injection Heq as _ Heq. apply (IH before); assumption.
    + simpl. intros Heq Hc. destruct before as [|b before]; simpl in Heq.
      * injection Heq as _ <-. split; reflexivity.
      * injection Heq as _ Heq. destruct before; discriminate.
Qed.

(** A no-match comes from the last call made, all the calls before it having
    passed. *)
Lemma shortCircuit_false calls :
  fst (shortCircuit MatchString calls) = false ->
  exists before c,
    snd (shortCircuit MatchString calls) = before ++ [ c ]
    /\ ~ passes MatchString c /\ Forall (passes MatchString) before.
Proof.
  induction calls as [|c calls IH]; simpl.
  - discriminate.
  - destruct (decide (passes MatchString c)) as [Hp|Hp].
    + destruct (shortCircuit MatchString calls) as [result made]. simpl in *.
      intros Hf. destruct (IH Hf) as (before & c' & -> & Hc' & Hall).
      exists (c :: before), c'. repeat split; [assumption|]. constructor; assumption.
    + simpl. intros _. exists [], c. repeat split; [assumption|constructor].
Qed.

(** The required calls pass exactly when every pattern that is a regular
    expression matches the segment at its position. *)
Lemma requiredCalls_pass matcher segs :
  (length matcher <= length segs)%nat ->
  Forall (passes MatchString) (requiredCalls matcher segs) <->
  (forall i m part,
      matcher !! i = Some m -> m <> "" -> m <> ".*" -> segs !! i = Some part ->
      MatchString m part = (true, None)).
Proof.
  revert segs. induction matcher as [|m matcher IH]; intros segs Hlen.
  - simpl. split; [|constructor]. intros _ i m part Hi. destruct i; discriminate.
  - destruct segs as [|s segs]; simpl in Hlen; [lia|].
    assert (Hlen' : (length matcher <= length segs)%nat) by lia.
    specialize (IH segs Hlen'). simpl.
    destruct (decide (m <> "" /\ m <> ".*")) as [[H1 H2]|Hm].
    + split.
      * intros Hall i m' part Hi Hn1 Hn2 Hs. inversion Hall as [|? ? Hc Hrest]; subst.
        destruct i as [|i]; simpl in Hi, Hs.
        -- injection Hi as <-. injection Hs as <-. exact Hc.
        -- destruct IH as [IH _]. eapply (IH Hrest); eassumption.
      * intros Hspec. constructor.
        -- apply (Hspec 0%nat m s); auto.
        -- apply IH. intros i m' part Hi Hn1 Hn2 Hs. apply (Hspec (S i) m' part); auto.
    + rewrite IH. split.
      * intros Hspec i m' part Hi Hn1 Hn2 Hs. destruct i as [|i]; simpl in Hi, Hs.
        -- injection Hi as <-. exfalso. apply Hm. split; assumption.
        -- eapply Hspec; eassumption.
      * intros Hspec i m' part Hi Hn1 Hn2 Hs. apply (Hspec (S i) m' part); auto.
Qed.

Lemma match_wildcards_any_path route matcher r :
  Forall acceptsAnything matcher ->
  matchTraced MatchString route matcher r = (Returns true, []).
Proof.
  intros Hall. unfold matchTraced.
  destruct (decide (length matcher = 0%nat)); [reflexivity|].
  apply matchFrom_wildcards. exact Hall.
Qed.

(** On a path too short for a pattern that is a regular expression, the loop
    cannot answer that the request matches: it has faulted, unless an earlier
    call did not pass. *)
Lemma matchFrom_short_path routeParts matcher i k m :
  matcher !! k = Some m -> m <> "" -> m <> ".*" ->
  (length routeParts <= i + k + 1)%nat ->
  fst (matchFrom MatchString routeParts i matcher) <> Returns true.
Proof.
  revert i k. induction matcher as [|m' matcher IH]; intros i k Hk H1 H2 Hlen.
  - discriminate.
  - simpl. destruct k as [|k]; simpl in Hk.
    + injection Hk as ->.
      destruct (decide (m <> "" /\ m <> ".*")) as [_|Hm]; [|exfalso; apply Hm; auto].
      rewrite lookup_ge_None_2 by lia. discriminate.
    + assert (Hrest : fst (matchFrom MatchString routeParts (S i) matcher) <> Returns true).
      { apply (IH (S i) k); auto. lia. }
      destruct (decide (m' <> "" /\ m' <> ".*")) as [_|_]; [|exact Hrest].
      destruct (routeParts !! (i + 1)%nat) as [part|]; [|discriminate].
      destruct (MatchString m' part) as [matched err].
      destruct (decide (err <> None \/ matched = false)); [discriminate|].
      destruct (matchFrom MatchString routeParts (S i) matcher). exact Hrest.
Qed.

(** C3. There are a matcher list with a regular-expression pattern at an
    index i and a request whose path splits into at most i+1 parts on which
    match faults: it indexes the list of parts out of range (Go panics) and
    returns neither a match nor a no-match. Here: matcher ["", "^[0-9]+$"] on
    the path /items, whatever the regular-expression engine. *)
Theorem C3_match_faults_on_short_path :
  exists (matcher : APIMatcher) (i : nat) (m : string) (r : http.Request),
    matcher <> []
    /\ matcher !! i = Some m /\ m <> "" /\ m <> ".*"
    /\ (length (strings.Split (http.URL_Path r) "/") <= i + 1)%nat
    /\ forall route,
         match_ MatchString route matcher r =
           Panics (IndexOutOfRange (i + 1)
                     (length (strings.Split (http.URL_Path r) "/"))).
Proof.
  exists [ ""; "^[0-9]+$" ], 1%nat, "^[0-9]+$",
    {| http.Method := "GET"; http.URL_Path := "/items";
       http.RequestURI := "/items"; http.RemoteAddr := "" |}.
  split; [discriminate|]. split; [reflexivity|].
  split; [discriminate|]. split; [discriminate|].
  split; [simpl; lia|]. intros route. reflexivity.
Qed.

(** C4. For a non-empty matcher list and a request path with a segment for
    every pattern, match returns (it does not fault), and it returns true
    exactly when every pattern that is neither "" nor ".*" matches, as a
    regular expression and without error, part i+1 of the path split on "/".
    The calls it makes to the engine are an initial run of the required
    calls: all of them when the result is true; a call that reports an error
    or no match is the last one made and makes the result false; and a result
    false comes from the last call made, the earlier ones having passed. *)
Theorem C4_match_conjunction (route : string) (matcher : APIMatcher) (r : http.Request) :
  matcher <> [] ->
  (length matcher <= length (segments r))%nat ->
  exists (result : bool) (calls : list (string * string)),
    matchTraced MatchString route matcher r = (Returns result, calls)
    /\ match_ MatchString route matcher r = Returns result
    /\ (result = true <->
        forall i m part,
          matcher !! i = Some m -> m <> "" -> m <> ".*" ->
          strings.Split (http.URL_Path r) "/" !! (i + 1)%nat = Some part ->
          MatchString m part = (true, None))
    /\ calls `prefix_of` requiredCalls matcher (segments r)
    /\ (result = true -> calls = requiredCalls matcher (segments r))
    /\ (forall before c after,
          calls = before ++ c :: after -> ~ passes MatchString c ->
          after = [] /\ result = false)
    /\ (result = false ->
        exists before c,
          calls = before ++ [ c ] /\ ~ passes MatchString c
          /\ Forall (passes MatchString) before).
Proof.
  intros Hne Hlen.
  destruct (Split_segments r) as [first Hsplit].
  set (required := requiredCalls matcher (segments r)).
  exists (fst (shortCircuit MatchString required)), (snd (shortCircuit MatchString required)).
  assert (Htraced : matchTraced MatchString route matcher r =
                    (Returns (fst (shortCircuit MatchString required)),
                     snd (shortCircuit MatchString required))).
  { unfold matchTraced.
    destruct (decide (length matcher = 0%nat)) as [Hz|_].
    - destruct matcher; [contradiction|discriminate].
    - rewrite Hsplit. rewrite matchFrom_shortCircuit; [reflexivity|exact Hlen]. }
  split; [exact Htraced|].
  split; [unfold match_; rewrite Htraced; reflexivity|].
  split.
  { rewrite shortCircuit_true. unfold required.
    rewrite (requiredCalls_pass _ _ Hlen). rewrite Hsplit.
    split; intros Hspec i m part Hi H1 H2 Hpart.
    - apply (Hspec i m part); auto.
      replace (i + 1)%nat with (S i) in Hpart by lia. exact Hpart.
    - apply (Hspec i m part); auto.
      replace (i + 1)%nat with (S i) by lia. exact Hpart. }
  split; [apply shortCircuit_prefix|].
  split; [apply shortCircuit_all|].
  split; [apply shortCircuit_stops|apply shortCircuit_false].
Qed.

(** C9. When every pattern of the matcher list is "" or ".*", match returns
    true for every request whose path has at least as many segments as there
    are patterns. *)
Theorem C9_wildcards_accept (route : string) (matcher : APIMatcher) (r : http.Request) :
  Forall acceptsAnything matcher ->
  (length matcher <= length (segments r))%nat ->
  match_ MatchString route matcher r = Returns true.
Proof.
  intros Hall _. unfold match_. rewrite match_wildcards_any_path by exact Hall.
  reflexivity.
Qed.

End MatcherProperties.

(** C4 on the path /items/42 with the literal pattern "items" and an
    accept-anything pattern. *)
Lemma C4_match_conjunction_witness :
  exists (result : bool) (calls : list (string * string)),
    match_ literalMatchString "/items/:id" [ "items"; "" ]
      {| http.Method := "GET"; http.URL_Path := "/items/42";
         http.RequestURI := "/items/42"; http.RemoteAddr := "" |} = Returns result
    /\ (result = true -> calls = [ ("items", "items") ]).
Proof.
  destruct (C4_match_conjunction literalMatchString "/items/:id" [ "items"; "" ]
              {| http.Method := "GET"; http.URL_Path := "/items/42";
                 http.RequestURI := "/items/42"; http.RemoteAddr := "" |})
    as (result & calls & _ & Hm & _ & _ & Hall & _).
  - discriminate.
  - simpl. lia.
  - exists result, calls. split; [exact Hm|exact Hall].
Defined.

(** C9 on the path /items/42 with two accept-anything patterns. *)
Lemma C9_wildcards_accept_witness :
  match_ literalMatchString "/items/:id" [ ""; ".*" ]
    {| http.Method := "GET"; http.URL_Path := "/items/42";
       http.RequestURI := "/items/42"; http.RemoteAddr := "" |} = Returns true.
Proof.
  apply C9_wildcards_accept.
  - constructor; [left; reflexivity|].
    constructor; [right; reflexivity|]. constructor.
  - simpl. lia.
Defined.

(** ** The responders *)

Section ResponderProperties.
Context {W : Type} `{http.ResponseWriter W}.

(** [ErrorResponse] writes the status, then one envelope: the standard one,
    or the one with the reason when a reason is given. *)
Lemma ErrorResponse_unfold (w : W) (status : Z) (reason : string) :
  ErrorResponse w status reason =
    (Encode (http.WriteHeader w status)
       (if decide (reason = "") then standardEnvelope status
        else reasonEnvelope status reason),
     status).
Proof.
  unfold ErrorResponse. cbv zeta.
  destruct (decide (reason <> "")) as [Hr|Hr]; destruct (decide (reason = "")) as [He|He];
    try contradiction.
  - unfold marshalHTTPErrorStatus. simpl.
    destruct (decide (reason = "")); [contradiction|]. reflexivity.
  - reflexivity.
Qed.

(** [BadRequestValidation] writes status 400, then the envelope with the
    reason and the validation errors it was given. *)
Lemma BadRequestValidation_unfold (w : W) (r : http.Request) (reason : string)
    (validationErrors : gmap string string) :
  BadRequestValidation w r reason validationErrors =
    Encode (http.WriteHeader w 400)
      (marshalHTTPErrorStatus
         {| Code := 400; Message := "Bad Request"; Reason := reason;
            ValidationErrors := validationErrors |}).
Proof.
  unfold BadRequestValidation. cbv zeta.
  assert (Hve : (if decide (0 < size validationErrors)%nat
                 then validationErrors else ∅) = validationErrors).
  { destruct (decide (0 < size validationErrors)%nat) as [Hs|Hs]; [reflexivity|].
    symmetry. apply map_size_empty_iff. lia. }
  destruct (decide (reason <> "")) as [Hr|Hr].
  - destruct (decide (0 < size validationErrors)%nat) as [Hs|Hs]; simpl.
    + reflexivity.
    + simpl in Hve. rewrite <- Hve. reflexivity.
  - assert (reason = "") as -> by (destruct (decide (reason = "")); [assumption|contradiction]).
    destruct (decide (0 < size validationErrors)%nat) as [Hs|Hs]; simpl.
    + reflexivity.
    + simpl in Hve. rewrite <- Hve. reflexivity.
Qed.

(** With an error, [Response] never looks at the payload, the desired status
    or the location. *)
Lemma Response_error_frame (w : W) (e : error) (payload payload' : option json.value)
    (desiredStatus desiredStatus' : Z) (location location' : string) :
  Response w payload (Some e) desiredStatus location =
  Response w payload' (Some e) desiredStatus' location'.
Proof. destruct e; reflexivity. Qed.

End ResponderProperties.

(** What [ErrorResponse] leaves in a recorder: the header map untouched, the
    envelope appended to the body, and on a recorder whose header was not
    written yet the status as the response code, with the header map of that
    moment as the headers sent. *)
Lemma recorder_ErrorResponse (rw : httptest.ResponseRecorder) (status : Z) (reason : string) :
  let w' := fst (ErrorResponse rw status reason) in
  httptest.HeaderMap w' = httptest.HeaderMap rw
  /\ httptest.Body w' =
       httptest.Body rw ++
       json.encode (if decide (reason = "") then standardEnvelope status
                    else reasonEnvelope status reason)
  /\ (httptest.wroteHeader rw = false ->
      httptest.Code w' = status /\ httptest.Result w' = httptest.HeaderMap rw).
Proof.
  cbv zeta. rewrite ErrorResponse_unfold. unfold Encode. simpl.
  unfold httptest.Result, httptest.Write, httptest.WriteHeader.
  destruct (httptest.wroteHeader rw) eqn:Hw; simpl; rewrite ?Hw; simpl.
  - repeat split; discriminate.
  - repeat split; reflexivity.
Qed.


(** The two [Header().Set] calls at the head of [Response], on a recorder. *)
Definition jsonHeaders (rw : httptest.ResponseRecorder) : httptest.ResponseRecorder :=
  http.HeaderSet (http.HeaderSet rw "Content-Type" "application/json; charset=utf-8")
    "Accept" "application/json".

Lemma Response_error_recorder (rw : httptest.ResponseRecorder) (e : error)
    (payload : option json.value) (desiredStatus : Z) (location : string) :
  exists status reason,
    fst (Response rw payload (Some e) desiredStatus location) =
      ErrorResponse (jsonHeaders rw) status reason
    /\ (recognized e -> sentinelStatus e = Some status /\ reason = "").
Proof.
  destruct e.
  - exists 400%Z, "". split; [reflexivity|]. intros _. split; reflexivity.
  - exists 401%Z, "". split; [reflexivity|]. intros _. split; reflexivity.
  - exists 500%Z, "404". split; [reflexivity|].
    intros [Hr|[Hr|Hr]]; discriminate.
  - exists 409%Z, "". split; [reflexivity|]. intros _. split; reflexivity.
  - exists 500%Z, "422". split; [reflexivity|].
    intros [Hr|[Hr|Hr]]; discriminate.
  - exists 500%Z, text. split; [reflexivity|].
    intros [Hr|[Hr|Hr]]; discriminate.
Qed.

(** C1 (the code misses two of the five sentinels). Response has no case for
    ErrNotFound nor for ErrUnprocessableEntity: called with either on a fresh
    recorder it returns 500, writes status 500 with the envelope whose reason
    is the text of the error (404, 422), and reports the error as unknown on
    standard output, where the sentinel stands for 404 and 422. *)
Theorem C1_Response_misses_two_sentinels :
  let notFound := Response httptest.NewRecorder None (Some ErrNotFound) 200 "" in
  let unprocessable :=
    Response httptest.NewRecorder None (Some ErrUnprocessableEntity) 200 "" in
  (sentinelStatus ErrNotFound = Some 404%Z
   /\ snd (fst notFound) = 500%Z
   /\ httptest.Code (fst (fst notFound)) = 500%Z
   /\ httptest.Body (fst (fst notFound)) = json.encode (reasonEnvelope 500 "404")
   /\ snd notFound = [ UnknownErr ErrNotFound ])
  /\ (sentinelStatus ErrUnprocessableEntity = Some 422%Z
      /\ snd (fst unprocessable) = 500%Z
      /\ httptest.Code (fst (fst unprocessable)) = 500%Z
      /\ httptest.Body (fst (fst unprocessable)) = json.encode (reasonEnvelope 500 "422")
      /\ snd unprocessable = [ UnknownErr ErrUnprocessableEntity ]).
Proof. cbv zeta. repeat split; reflexivity. Qed.

(** C2 (the convenience responders never set the header). On a fresh
    recorder ErrorResponse, BadRequest, BadRequestValidation, NotFound,
    NotAllowed, Unauthorized and Forbidden send the error envelope with no
    Content-Type among the headers of the response; only Response, which sets
    the header before it calls ErrorResponse, sends
    application/json; charset=utf-8. *)
Theorem C2_responders_leave_content_type_unset (r : http.Request) (status : Z)
    (reason : string) (validationErrors : gmap string string) (e : error) :
  let fresh := httptest.NewRecorder in
  (httptest.Result (fst (ErrorResponse fresh status reason)) !! "Content-Type" = None
   /\ httptest.Result (BadRequest fresh r reason) !! "Content-Type" = None
   /\ httptest.Result (BadRequestValidation fresh r reason validationErrors)
        !! "Content-Type" = None
   /\ httptest.Result (NotFound fresh r) !! "Content-Type" = None
   /\ httptest.Result (NotAllowed fresh r) !! "Content-Type" = None
   /\ httptest.Result (Unauthorized fresh r) !! "Content-Type" = None
   /\ httptest.Result (Forbidden fresh r reason) !! "Content-Type" = None)
  /\ http.Get (httptest.Result (fst (fst (Response fresh None (Some e) 200 ""))))
       "Content-Type" = "application/json; charset=utf-8".
Proof.
  cbv zeta. split.
  - (* none of the seven touches the header map, which is empty when the
       header is written *)
    repeat apply conj; reflexivity.
  - destruct (Response_error_recorder httptest.NewRecorder e None 200 "")
      as (st & rs & -> & _).
    destruct (recorder_ErrorResponse (jsonHeaders httptest.NewRecorder) st rs)
      as (_ & _ & Hsent).
    destruct (Hsent eq_refl) as [_ ->]. reflexivity.
Qed.







(** ** The route registry *)

Lemma forEach_app {A S : Type} (step : S -> A -> outcome S) (l1 l2 : list A) (s : S) :
  forEach step (l1 ++ l2) s = (s' <-! forEach step l1 s; forEach step l2 s').
Proof.
  revert s. induction l1 as [|a l1 IH]; intros s; simpl; [reflexivity|].
  destruct (step s a) as [s1|p]; simpl; [apply IH|reflexivity].
Qed.

Lemma forEach_map {A B S : Type} (step : S -> B -> outcome S) (g : A -> B)
    (l : list A) (s : S) :
  forEach step (List.map g l) s = forEach (fun s a => step s (g a)) l s.
Proof.
  revert s. induction l as [|a l IH]; intros s; simpl; [reflexivity|].
  destruct (step s (g a)); simpl; [apply IH|reflexivity].
Qed.

(** The second loop of [SetupRouter] visits the registered triples one after
    the other. *)
Lemma installRoutes_flat (routes : Routes) (st : httprouter.Router * Logging) :
  forEach (fun st entry => forEach (installRoute (fst entry)) (snd entry) st) routes st =
  forEach (fun st t => installRoute (fst (fst t)) st (snd (fst t), snd t))
    (registered routes) st.
Proof.
  revert st. induction routes as [|entry routes IH]; intros st; simpl; [reflexivity|].
  unfold registered in *. simpl. rewrite forEach_app, forEach_map. simpl.
  destruct entry as [method mappings]. simpl.
  assert (Heq : forEach (installRoute method) mappings st =
                forEach (fun s a => installRoute method s (fst a, snd a)) mappings st).
  { clear. revert st. induction mappings as [|[route ep] mappings IH]; intros st; simpl;
      [reflexivity|].
    destruct (installRoute method st (route, ep)); simpl; [apply IH|reflexivity]. }
  rewrite <- Heq.
  destruct (forEach (installRoute method) mappings st); simpl; [apply IH|reflexivity].
Qed.

Lemma buildOptionsMappings_flat (routes : Routes) :
  buildOptionsMappings routes =
  fold_left (fun om t => addMapping om (snd (fst t)) (fst (fst t))) (registered routes) ∅.
Proof.
  unfold buildOptionsMappings. generalize (∅ : gmap string (list string)).
  induction routes as [|[method mappings] routes IH]; intros om; simpl; [reflexivity|].
  unfold registered in *. simpl. rewrite fold_left_app. rewrite <- IH. f_equal.
  clear. revert om. induction mappings as [|[route ep] mappings IH]; intros om; simpl;
    [reflexivity|]. apply IH.
Qed.

(** A loop that installs one handle per element, each under a key of its
    own: when it returns, the keys were free and distinct, every handle is in
    the table, and what the table held is still there. *)
Section InstallLoop.
Context {A : Type}.
Variable key : A -> string * string.
Variable handle : A -> Handle.
Variable step : httprouter.Router * Logging -> A -> outcome (httprouter.Router * Logging).
Hypothesis step_installs :
  forall st a,
    exists l,
      step st a =
        (router <-! httprouter.Handle (fst st) (fst (key a)) (snd (key a)) (handle a);
         Returns (router, l)).

Lemma install_loop (l : list A) (st st' : httprouter.Router * Logging) :
  forEach step l st = Returns st' ->
  httprouter.handles (fst st) ⊆ httprouter.handles (fst st')
  /\ (forall a, In a l ->
        httprouter.handles (fst st) !! key a = None
        /\ httprouter.handles (fst st') !! key a = Some (handle a))
  /\ NoDup (List.map key l).
Proof.
  revert st. induction l as [|a l IH]; intros st Hrun; simpl in Hrun.
  - injection Hrun as <-. split; [reflexivity|]. split; [intros a []|constructor].
  - destruct (step_installs st a) as [lg Hstep]. rewrite Hstep in Hrun.
    unfold httprouter.Handle in Hrun.
    destruct (key a) as [method path] eqn:Hkey. simpl in Hrun.
    destruct (httprouter.handles (fst st) !! (method, path)) eqn:Hfree;
      [discriminate|].
    simpl in Hrun. apply IH in Hrun as (Hsub & Hall & Hnodup). simpl in Hsub, Hall.
    assert (Hsub' : httprouter.handles (fst st) ⊆ httprouter.handles (fst st')).
    { etransitivity; [|exact Hsub]. apply insert_subseteq. exact Hfree. }
    split; [exact Hsub'|]. split.
    + intros b [<-|Hb].
      * rewrite Hkey. split; [exact Hfree|].
        eapply lookup_weaken; [|exact Hsub]. apply lookup_insert_eq.
      * destruct (Hall b Hb) as [Hnone Hsome]. split; [|exact Hsome].
        destruct (decide ((method, path) = key b)) as [Heq|Hne].
        -- rewrite <- Heq in Hnone. rewrite lookup_insert_eq in Hnone. discriminate.
        -- rewrite lookup_insert_ne in Hnone by exact Hne. exact Hnone.
    + simpl. constructor; [|exact Hnodup].
      rewrite Hkey. intros Hin. apply list_elem_of_In in Hin.
      apply in_map_iff in Hin as (b & Hb & Hin).
      destruct (Hall b Hin) as [Hnone _]. rewrite Hb in Hnone.
      rewrite lookup_insert_eq in Hnone. discriminate.
Qed.

End InstallLoop.

Lemma addMapping_lookup (om : gmap string (list string)) (r m route : string) :
  addMapping om r m !! route =
    if decide (r = route) then Some (default [] (om !! route) ++ [ m ]) else om !! route.
Proof.
  unfold addMapping. destruct (decide (r = route)) as [->|Hne].
  - destruct (om !! route) eqn:E; rewrite lookup_insert_eq; reflexivity.
  - destruct (om !! r); rewrite lookup_insert_ne by exact Hne; reflexivity.
Qed.

Lemma fold_addMapping (l : list (string * string * APIEndpoint))
    (om : gmap string (list string)) (route : string) :
  fold_left (fun om t => addMapping om (snd (fst t)) (fst (fst t))) l om !! route =
    match List.map (fun t => fst (fst t))
            (List.filter (fun t => String.eqb (snd (fst t)) route) l) with
    | [] => om !! route
    | methods => Some (default [] (om !! route) ++ methods)
    end.
Proof.
  revert om. induction l as [|[[m r] ep] l IH]; intros om; simpl; [reflexivity|].
  rewrite IH, addMapping_lookup.
  destruct (String.eqb_spec r route) as [->|Hne]; simpl.
  - destruct (decide (route = route)) as [_|Hc]; [|contradiction]. simpl.
    destruct (List.map _ (List.filter _ l)) as [|m' ms]; [reflexivity|].
    rewrite <- app_assoc. reflexivity.
  - destruct (decide (r = route)) as [Hc|_]; [contradiction|]. reflexivity.
Qed.

(** What the first loop of [SetupRouter] leaves under a route: the methods it
    is registered under, or nothing when there is none. *)
Lemma buildOptionsMappings_lookup (routes : Routes) (route : string) :
  buildOptionsMappings routes !! route =
    match methodsOf routes route with
    | [] => None
    | methods => Some methods
    end.
Proof.
  rewrite buildOptionsMappings_flat, fold_addMapping. unfold methodsOf.
  rewrite lookup_empty. reflexivity.
Qed.

Lemma methodsOf_spec (routes : Routes) (route method : string) :
  In method (methodsOf routes route) <->
  exists endpoint, In (method, route, endpoint) (registered routes).
Proof.
  unfold methodsOf. rewrite in_map_iff. split.
  - intros ([[m r] ep] & <- & Hin). apply filter_In in Hin as [Hin Hr].
    simpl in *. apply String.eqb_eq in Hr as ->. exists ep. exact Hin.
  - intros [ep Hin]. exists (method, route, ep). split; [reflexivity|].
    apply filter_In. split; [exact Hin|]. simpl. apply String.eqb_refl.
Qed.

Lemma methodsOf_NoDup (routes : Routes) (route : string) :
  NoDup (List.map fst (registered routes)) -> NoDup (methodsOf routes route).
Proof.
  unfold methodsOf. induction (registered routes) as [|[[m r] ep] l IH]; simpl;
    intros Hnd; [constructor|].
  apply NoDup_cons in Hnd as [Hfresh Hnd]. specialize (IH Hnd).
  destruct (String.eqb_spec r route) as [->|Hne]; simpl; [|exact IH].
  apply NoDup_cons. split; [|exact IH].
  intros Hin. apply Hfresh. apply list_elem_of_In in Hin. apply list_elem_of_In.
  apply in_map_iff in Hin as ([[m' r'] ep'] & Hm & Hin). simpl in Hm. subst m'.
  apply filter_In in Hin as [Hin Hr]. simpl in Hr. apply String.eqb_eq in Hr as ->.
  apply in_map_iff. exists (m, route, ep'). split; [reflexivity|exact Hin].
Qed.

(** What a returning [SetupRouter] went through. *)
Lemma SetupRouter_inv (rr0 rr : REST) (routes : Routes) :
  SetupRouter rr0 routes = Returns rr ->
  exists st2 st3,
    forEach (fun st t => installRoute (fst (fst t)) st (snd (fst t), snd t))
      (registered routes) (httprouter.New, rlogger rr0) = Returns st2
    /\ forEach installOptions
         (List.map fst (map_to_list (buildOptionsMappings routes))) st2 = Returns st3
    /\ optionsMappings rr = buildOptionsMappings routes
    /\ exists table,
         router rr = Some table
         /\ httprouter.handles table = httprouter.handles (fst st3).
Proof.
  unfold SetupRouter. cbv zeta. rewrite installRoutes_flat.
  change (rlogger (withOptionsMappings rr0 (buildOptionsMappings routes)))
    with (rlogger rr0).
  change (optionsMappings (withOptionsMappings rr0 (buildOptionsMappings routes)))
    with (buildOptionsMappings routes).
  destruct (forEach _ (registered routes) _) as [st2|p] eqn:Hloop2; [|discriminate].
  unfold obind at 1.
  destruct (forEach installOptions _ st2) as [st3|p] eqn:Hloop3; [|discriminate].
  unfold obind. intros Hrr. injection Hrr as <-. exists st2, st3.
  split; [reflexivity|]. split; [exact Hloop3|]. split; [reflexivity|].
  eexists. split; reflexivity.
Qed.

(** The table a returning [SetupRouter] built: the wrapper of every registered
    triple, the OPTIONS handler of every registered route, distinct (method,
    route) pairs, and no route registered under OPTIONS by hand. *)
Lemma SetupRouter_table (rr0 rr : REST) (routes : Routes) :
  SetupRouter rr0 routes = Returns rr ->
  exists table,
    router rr = Some table
    /\ optionsMappings rr = buildOptionsMappings routes
    /\ NoDup (List.map fst (registered routes))
    /\ (forall method route endpoint,
          In (method, route, endpoint) (registered routes) ->
          httprouter.handles table !! (method, route) =
            Some (routeWrapper method route (Handler endpoint) (Matcher endpoint))
          /\ httprouter.handles table !! ("OPTIONS", route) =
               Some (optionsWrapper route "OPTIONS")
          /\ method <> "OPTIONS").
Proof.
  intros Hrun. apply SetupRouter_inv in Hrun
    as (st2 & st3 & Hloop2 & Hloop3 & Hom & table & Htable & Hhandles).
  exists table. split; [exact Htable|]. split; [exact Hom|].
  apply (install_loop (fun t => fst t)
           (fun t => routeWrapper (fst (fst t)) (snd (fst t))
                       (Handler (snd t)) (Matcher (snd t)))) in Hloop2
    as (_ & Hall2 & Hnodup).
  2:{ intros st [[m r] ep]. eexists. reflexivity. }
  apply (install_loop (fun route => ("OPTIONS", route))
           (fun route => optionsWrapper route "OPTIONS")) in Hloop3
    as (Hsub3 & Hall3 & _).
  2:{ intros st route. eexists. reflexivity. }
  split; [exact Hnodup|].
  intros method route endpoint Hin.
  destruct (Hall2 _ Hin) as [_ Hwrapper]. simpl in Hwrapper.
  assert (Hroute : In route (List.map fst (map_to_list (buildOptionsMappings routes)))).
  { assert (Hm : In method (methodsOf routes route))
      by (apply methodsOf_spec; exists endpoint; exact Hin).
    pose proof (buildOptionsMappings_lookup routes route) as Hlook.
    destruct (methodsOf routes route) as [|m0 ms] eqn:Hms; [destruct Hm|].
    apply in_map_iff. exists (route, m0 :: ms). split; [reflexivity|].
    apply list_elem_of_In. apply elem_of_map_to_list. exact Hlook. }
  destruct (Hall3 _ Hroute) as [Hfree Hoptions].
  rewrite Hhandles.
  split; [eapply lookup_weaken; [exact Hwrapper|exact Hsub3]|].
  split; [exact Hoptions|].
  intros ->. rewrite Hwrapper in Hfree. discriminate.
Qed.

(** ** The dispatch wrappers on a recorder *)

Lemma Values_Add_eq (h : http.Header) (k v : string) :
  http.Values (http.Add h k v) k = http.Values h k ++ [ v ].
Proof. unfold http.Values, http.Add. rewrite lookup_insert_eq. reflexivity. Qed.

Lemma Values_Add_ne (h : http.Header) (k k' v : string) :
  k <> k' -> http.Values (http.Add h k v) k' = http.Values h k'.
Proof.
  intros Hne. unfold http.Values, http.Add.
  rewrite lookup_insert_ne by exact Hne. reflexivity.
Qed.

(** The synthesized OPTIONS handler on a fresh recorder: status 200, no body,
    and one Access-Control-Allow-Methods value, OPTIONS followed by the
    methods the options-mapping table holds for the route. *)
Lemma optionsHandler_recorder (rr1 : REST) (route : string) (r : http.Request)
    (ps : Params) (elapsed : Z) :
  let out := optionsHandler rr1 route "OPTIONS" httptest.NewRecorder r ps elapsed in
  httptest.Code (fst out) = 200%Z
  /\ httptest.Body (fst out) = []
  /\ http.Values (httptest.Result (fst out)) "Access-Control-Allow-Methods" =
       [ "OPTIONS, " +:+ strings.Join (default [] (optionsMappings rr1 !! route)) ", " ].
Proof.
  cbv zeta. unfold optionsHandler, addHSTS.
  destruct (tls rr1); (split; [reflexivity|]); (split; [reflexivity|]);
    cbv [fst logwriter.ResponseWriter logwriter.WriteHeader
         logwriter.NewLogResponseWriter writeHeaders http.HeaderAdd http.GetHeader
         http.withHeader logwriter.log_writer httptest.recorder_writer
         http.WriteHeader httptest.WriteHeader httptest.NewRecorder
         httptest.wroteHeader httptest.HeaderMap httptest.Result
         httptest.snapHeader http.StatusOK];
    rewrite !Values_Add_ne by discriminate; rewrite Values_Add_eq;
    rewrite !Values_Add_ne by discriminate; reflexivity.
Qed.

Section DispatchProperties.
Variable MatchString : string -> string -> bool * option error.

(** The wrapper of a route on a fresh recorder, for a request its matcher
    rejects. *)
Lemma wrapper_no_match_recorder (rr1 : REST) (method route : string)
    (handler : APIHandler) (matcher : APIMatcher) (r : http.Request) (ps : Params)
    (elapsed : Z) :
  match_ MatchString route matcher r = Returns false ->
  exists w,
    wrapper MatchString rr1 method route handler matcher httptest.NewRecorder r ps elapsed =
      Returns (w, log rr1 true "hit" method route (http.RequestURI r) (http.RemoteAddr r)
                    400 0 elapsed)
    /\ httptest.Code w = 400%Z
    /\ httptest.Body w = json.encode (reasonEnvelope 400 "route does not match").
Proof.
  intros Hno. unfold wrapper. cbv zeta. rewrite Hno. unfold obind.
  eexists. split; [reflexivity|].
  unfold BadRequest, http.StatusBadRequest.
  destruct (recorder_ErrorResponse (addHSTS rr1 httptest.NewRecorder) 400
              "route does not match") as (_ & Hbody & Hsent).
  assert (Hfresh : httptest.wroteHeader (addHSTS rr1 httptest.NewRecorder) = false)
    by (unfold addHSTS; destruct (tls rr1); reflexivity).
  split.
  - exact (proj1 (Hsent Hfresh)).
  - rewrite Hbody. unfold addHSTS. destruct (tls rr1); reflexivity.
Qed.

(** C5. After SetupRouter has returned, for every registered (method, path,
    endpoint) triple the handler table holds the dispatch wrapper of the
    triple under (method, path); run on a fresh response for a request that
    the endpoint's matcher rejects, it responds with status 400 and the error
    envelope with reason "route does not match", and it adds to the log one
    entry at error level with code 400 and size 0. *)
Theorem C5_unmatched_request_is_bad_request (rr0 rr rr1 : REST) (routes : Routes)
    (method route : string) (endpoint : APIEndpoint) (r : http.Request) (ps : Params)
    (elapsed : Z) :
  SetupRouter rr0 routes = Returns rr ->
  In (method, route, endpoint) (registered routes) ->
  sameTables rr rr1 ->
  match_ MatchString route (Matcher endpoint) r = Returns false ->
  exists table w rr2,
    router rr1 = Some table
    /\ httprouter.handles table !! (method, route) =
         Some (routeWrapper method route (Handler endpoint) (Matcher endpoint))
    /\ serve MatchString rr1
         (routeWrapper method route (Handler endpoint) (Matcher endpoint))
         httptest.NewRecorder r ps elapsed = Returns (w, rr2)
    /\ httptest.Code w = 400%Z
    /\ httptest.Body w = json.encode (reasonEnvelope 400 "route does not match")
    /\ logger (rlogger rr2) =
         logger (rlogger rr1) ++
         [ {| zap.level := zap.ErrorLevel; zap.message := "hit";
              zap.fields :=
                [ zap.String_ "method" method; zap.String_ "uri" (http.RequestURI r);
                  zap.String_ "remote" (http.RemoteAddr r); zap.Int "code" 400;
                  zap.Int "size" 0; zap.Duration "duration" elapsed;
                  zap.String_ "source" "rest" ] |} ].
Proof.
  intros Hsetup Hin [_ Hrouter] Hno.
  destruct (SetupRouter_table _ _ _ Hsetup) as (table & Htable & _ & _ & Hall).
  destruct (Hall _ _ _ Hin) as (Hwrapper & _ & _).
  destruct (wrapper_no_match_recorder rr1 method route (Handler endpoint)
              (Matcher endpoint) r ps elapsed Hno) as (w & Hrun & Hcode & Hbody).
  exists table, w. eexists.
  split; [rewrite Hrouter; exact Htable|].
  split; [exact Hwrapper|].
  split; [exact Hrun|].
  split; [exact Hcode|]. split; [exact Hbody|]. reflexivity.
Qed.

(** C6. After SetupRouter has returned, for every path registered under at
    least one method the handler table holds the synthesized handler under
    (OPTIONS, path); on a fresh response it writes status 200 and no body, and
    the Access-Control-Allow-Methods header it sends is "OPTIONS, " followed by
    a comma-separated list of methods: exactly the methods registered for the
    path, none of them twice and none of them OPTIONS. *)
Theorem C6_options_handler (rr0 rr rr1 : REST) (routes : Routes) (route : string)
    (r : http.Request) (ps : Params) (elapsed : Z) :
  SetupRouter rr0 routes = Returns rr ->
  (exists method endpoint, In (method, route, endpoint) (registered routes)) ->
  sameTables rr rr1 ->
  exists table methods w rr2,
    router rr1 = Some table
    /\ httprouter.handles table !! ("OPTIONS", route) =
         Some (optionsWrapper route "OPTIONS")
    /\ serve MatchString rr1 (optionsWrapper route "OPTIONS") httptest.NewRecorder
         r ps elapsed = Returns (w, rr2)
    /\ httptest.Code w = 200%Z
    /\ httptest.Body w = []
    /\ http.Values (httptest.Result w) "Access-Control-Allow-Methods" =
         [ strings.Join ("OPTIONS" :: methods) ", " ]
    /\ (forall method,
          In method methods <->
          exists endpoint, In (method, route, endpoint) (registered routes))
    /\ NoDup ("OPTIONS" :: methods).
Proof.
  intros Hsetup (method & endpoint & Hin) [Hom Hrouter].
  destruct (SetupRouter_table _ _ _ Hsetup) as (table & Htable & Hbuilt & Hnodup & Hall).
  destruct (Hall _ _ _ Hin) as (_ & Hoptions & _).
  exists table, (methodsOf routes route).
  destruct (optionsHandler_recorder rr1 route r ps elapsed) as (Hcode & Hbody & Hvalues).
  exists (fst (optionsHandler rr1 route "OPTIONS" httptest.NewRecorder r ps elapsed)),
    (snd (optionsHandler rr1 route "OPTIONS" httptest.NewRecorder r ps elapsed)).
  split; [rewrite Hrouter; exact Htable|].
  split; [exact Hoptions|].
  split; [unfold serve; f_equal; apply surjective_pairing|].
  split; [exact Hcode|]. split; [exact Hbody|].
  assert (Hmethods : methodsOf routes route <> []).
  { intros Hnil.
    assert (Hm : In method (methodsOf routes route))
      by (apply methodsOf_spec; exists endpoint; exact Hin).
    rewrite Hnil in Hm. destruct Hm. }
  split.
  { rewrite Hvalues, Hom, Hbuilt, buildOptionsMappings_lookup.
    destruct (methodsOf routes route) as [|m0 ms]; [contradiction|]. reflexivity. }
  split; [intros m; apply methodsOf_spec|].
  apply NoDup_cons. split; [|apply methodsOf_NoDup; exact Hnodup].
  intros Hopt. apply list_elem_of_In in Hopt. apply methodsOf_spec in Hopt as [ep Hep].
  destruct (Hall _ _ _ Hep) as (_ & _ & Hne). apply Hne. reflexivity.
Qed.

End DispatchProperties.

(** C5 on the sample table: GET /users/7 reaches the wrapper of
    GET /items/:id, whose matcher wants the literal items. *)
Lemma C5_unmatched_request_is_bad_request_witness :
  exists rr w rr2,
    SetupRouter sampleREST sampleRoutes = Returns rr
    /\ serve literalMatchString rr
         (routeWrapper "GET" "/items/:id" sampleHandler [ "items"; "" ])
         httptest.NewRecorder (sampleRequest "/users/7") [] 12 = Returns (w, rr2)
    /\ httptest.Code w = 400%Z
    /\ httptest.Body w = json.encode (reasonEnvelope 400 "route does not match").
Proof.
  destruct (SetupRouter sampleREST sampleRoutes) as [rr|p] eqn:Hsetup;
    [|vm_compute in Hsetup; discriminate].
  destruct (C5_unmatched_request_is_bad_request literalMatchString sampleREST rr rr
              sampleRoutes "GET" "/items/:id" sampleEndpoint
              (sampleRequest "/users/7") [] 12 Hsetup)
    as (table & w & rr2 & _ & _ & Hrun & Hcode & Hbody & _).
  - simpl. left. reflexivity.
  - split; reflexivity.
  - reflexivity.
  - exists rr, w, rr2. repeat split; assumption.
Defined.

(** C6 on the sample table: the OPTIONS handler of /items/:id. *)
Lemma C6_options_handler_witness :
  exists rr methods w rr2,
    SetupRouter sampleREST sampleRoutes = Returns rr
    /\ serve literalMatchString rr (optionsWrapper "/items/:id" "OPTIONS")
         httptest.NewRecorder (sampleRequest "/items/7") [] 12 = Returns (w, rr2)
    /\ httptest.Code w = 200%Z
    /\ httptest.Body w = []
    /\ http.Values (httptest.Result w) "Access-Control-Allow-Methods" =
         [ strings.Join ("OPTIONS" :: methods) ", " ]
    /\ NoDup ("OPTIONS" :: methods).
Proof.
  destruct (SetupRouter sampleREST sampleRoutes) as [rr|p] eqn:Hsetup;
    [|vm_compute in Hsetup; discriminate].
  destruct (C6_options_handler literalMatchString sampleREST rr rr sampleRoutes
              "/items/:id" (sampleRequest "/items/7") [] 12 Hsetup)
    as (table & methods & w & rr2 & _ & _ & Hrun & Hcode & Hbody & Hvalues & _ & Hnodup).
  - exists "GET", sampleEndpoint. simpl. left. reflexivity.
  - split; reflexivity.
  - exists rr, methods, w, rr2. repeat split; assumption.
Defined.

(** * Further properties *)

(** ** The responders, beyond the error envelope *)


(** X2. An error that has no case in the switch of Response, be it a value
    whose text is that of a sentinel, is answered with status 500, the
    envelope of 500 with the text of the error as reason (no reason when the
    text is empty) and the JSON content type; the error is reported on
    standard output and 500 is returned. *)
Theorem X2_Response_unknown_error (e : error) (payload : option json.value)
    (desiredStatus : Z) (location : string) :
  ~ recognized e ->
  let out := Response httptest.NewRecorder payload (Some e) desiredStatus location in
  let w := fst (fst out) in
  snd (fst out) = 500%Z
  /\ snd out = [ UnknownErr e ]
  /\ httptest.Code w = 500%Z
  /\ httptest.Body w =
       json.encode (if decide (Error e = "") then standardEnvelope 500
                    else reasonEnvelope 500 (Error e))
  /\ httptest.Result w !! "Content-Type" = Some [ "application/json; charset=utf-8" ]
  /\ httptest.Result w !! "Location" = None.
Proof.
  intros Hnot. cbv zeta.
  assert (Hout : Response httptest.NewRecorder payload (Some e) desiredStatus location =
                 (ErrorResponse (jsonHeaders httptest.NewRecorder) 500 (Error e),
                  [ UnknownErr e ])).
  { destruct e; try reflexivity; exfalso; apply Hnot; unfold recognized; auto. }
  rewrite Hout. cbn [fst snd].
  destruct (recorder_ErrorResponse (jsonHeaders httptest.NewRecorder) 500 (Error e))
    as (_ & Hbody & Hsent).
  destruct (Hsent eq_refl) as [Hcode Hres].
  split; [rewrite ErrorResponse_unfold; reflexivity|]. split; [reflexivity|].
  split; [exact Hcode|]. split; [exact Hbody|]. rewrite Hres. split; reflexivity.
Qed.

(** X2 at an error made anew with the text of ErrConflict. *)
Lemma X2_Response_unknown_error_witness :
  let out := Response httptest.NewRecorder None (Some (OtherError "409")) 200 "" in
  snd (fst out) = 500%Z
  /\ httptest.Body (fst (fst out)) = json.encode (reasonEnvelope 500 "409").
Proof.
  cbv zeta.
  destruct (X2_Response_unknown_error (OtherError "409") None 200 "")
    as (Hret & _ & _ & Hbody & _).
  - intros [H|[H|H]]; discriminate.
  - split; [exact Hret|exact Hbody].
Defined.



Section ResponderEquivalence.
Context {W : Type} `{http.ResponseWriter W}.

(** X4. Given no validation errors, BadRequestValidation does to any response
    writer exactly what BadRequest does: status 400 and the same envelope. *)
Theorem X4_BadRequestValidation_empty (w : W) (r : http.Request) (reason : string) :
  BadRequestValidation w r reason ∅ = BadRequest w r reason.
Proof.
  rewrite BadRequestValidation_unfold. unfold BadRequest.
  rewrite ErrorResponse_unfold. simpl. unfold http.StatusBadRequest. f_equal.
  unfold marshalHTTPErrorStatus. simpl.
  destruct (decide (reason = "")); reflexivity.
Qed.

End ResponderEquivalence.

(** ** Split and Join, and Location *)

Lemma Join_cons (e : string) (rest : list string) (sep : string) :
  rest <> [] -> strings.Join (e :: rest) sep = e +:+ sep +:+ strings.Join rest sep.
Proof. destruct rest; [contradiction|reflexivity]. Qed.

Lemma append_String (c : ascii) (s t : string) : String c s +:+ t = String c (s +:+ t).
Proof. reflexivity. Qed.

Lemma Split_no_sep (s : string) (sep : ascii) :
  ~ hasByte sep s -> strings.Split s sep = [ s ].
Proof.
  unfold hasByte. induction s as [|c s IH]; simpl; intros Hno; [reflexivity|].
  destruct (Ascii.eqb_spec c sep) as [->|Hne].
  - exfalso. apply Hno. left. reflexivity.
  - rewrite IH by (intros Hin; apply Hno; right; exact Hin). reflexivity.
Qed.

Lemma Split_app (s t : string) (sep : ascii) :
  ~ hasByte sep s ->
  strings.Split (s +:+ String sep t) sep = s :: strings.Split t sep.
Proof.
  unfold hasByte. induction s as [|c s IH]; simpl; intros Hno.
  - rewrite Ascii.eqb_refl. reflexivity.
  - destruct (Ascii.eqb_spec c sep) as [->|Hne].
    + exfalso. apply Hno. left. reflexivity.
    + rewrite IH by (intros Hin; apply Hno; right; exact Hin). reflexivity.
Qed.

(** X5. Location and the split of match are inverse to each other: joining
    the parts of any path gives the path back, and a location built from a
    non-empty list of parts that hold no slash splits into these parts. In
    particular the segments match sees for a path built from the empty part
    followed by such parts are these parts. *)
Theorem X5_Location_Split_round_trip :
  (forall s : string, Location (strings.Split s "/") = s)
  /\ (forall parts : list string,
        parts <> [] -> Forall (fun part => ~ hasByte "/" part) parts ->
        strings.Split (Location parts) "/" = parts)
  /\ (forall (r : http.Request) (segs : list string),
        Forall (fun part => ~ hasByte "/" part) segs ->
        http.URL_Path r = Location ("" :: segs) ->
        segments r = segs).
Proof.
  assert (Hsplit : forall parts : list string,
             parts <> [] -> Forall (fun part => ~ hasByte "/" part) parts ->
             strings.Split (Location parts) "/" = parts).
  { unfold Location. induction parts as [|e rest IH]; intros Hne Hall; [contradiction|].
    inversion Hall as [|? ? He Hrest]; subst.
    destruct rest as [|e' rest].
    - simpl. apply Split_no_sep. exact He.
    - rewrite Join_cons by discriminate.
      change (e +:+ "/" +:+ strings.Join (e' :: rest) "/")
        with (e +:+ String "/" (strings.Join (e' :: rest) "/")).
      rewrite Split_app by exact He. f_equal. apply IH; [discriminate|exact Hrest]. }
  split; [|split; [exact Hsplit|]].
  - unfold Location. induction s as [|c s IH]; [reflexivity|]. simpl.
    destruct (Ascii.eqb_spec c "/") as [->|Hne].
    + rewrite Join_cons by apply Split_nonempty. rewrite IH. reflexivity.
    + destruct (strings.Split s "/") as [|part parts] eqn:E.
      * exfalso. exact (Split_nonempty _ _ E).
      * destruct parts as [|part' parts].
        -- simpl in *. rewrite IH. reflexivity.
        -- rewrite Join_cons by discriminate. rewrite Join_cons in IH by discriminate.
           rewrite append_String, IH. reflexivity.
  - intros r segs Hall Hpath. unfold segments. rewrite Hpath.
    rewrite Hsplit; [reflexivity|discriminate|].
    constructor; [|exact Hall]. unfold hasByte. simpl. tauto.
Qed.

(** X5 on the location of one item. *)
Lemma X5_Location_Split_round_trip_witness :
  strings.Split (Location [ ""; "items"; "42" ]) "/" = [ ""; "items"; "42" ]
  /\ segments (sampleRequest (Location [ ""; "items"; "42" ])) = [ "items"; "42" ].
Proof.
  destruct X5_Location_Split_round_trip as (_ & Hsplit & Hsegs).
  assert (Hclean : Forall (fun part => ~ hasByte "/" part) [ "items"; "42" ]).
  { repeat constructor; unfold hasByte; simpl; intros Hin;
      repeat (destruct Hin as [Hin|Hin]; [discriminate|]); exact Hin. }
  split.
  - apply Hsplit; [discriminate|].
    constructor; [unfold hasByte; simpl; tauto|exact Hclean].
  - apply Hsegs; [exact Hclean|reflexivity].
Defined.

(** ** The instrumented writer in front of a recorder *)

Lemma recorder_runCalls (calls : list call) (rw : httptest.ResponseRecorder) :
  snd (runCalls rw calls) =
    List.map (fun p => (Z.of_nat (length p), None)) (written calls)
  /\ httptest.Body (fst (runCalls rw calls)) =
       httptest.Body rw ++ concat (written calls).
Proof.
  revert rw. induction calls as [|c calls IH]; intros rw.
  - simpl. rewrite app_nil_r. split; reflexivity.
  - destruct c as [p|statusCode].
    + cbn [runCalls]. change (http.Write rw p) with (httptest.Write rw p).
      unfold httptest.Write. cbv zeta.
      match goal with
      | |- context [runCalls ?rw1 calls] =>
          destruct (IH rw1) as [Hrets Hbody];
          destruct (runCalls rw1 calls) as [w' rets]
      end.
      simpl in Hrets, Hbody |- *.
      split; [f_equal; exact Hrets|].
      rewrite Hbody, <- app_assoc. f_equal.
      unfold httptest.WriteHeader. destruct (httptest.wroteHeader rw); reflexivity.
    + simpl. destruct (IH (httptest.WriteHeader rw statusCode)) as [Hrets Hbody].
      split; [exact Hrets|]. rewrite Hbody. f_equal.
      unfold httptest.WriteHeader. destruct (httptest.wroteHeader rw); reflexivity.
Qed.

Lemma total_lengths (ps : list bytes) :
  fold_right Z.add 0%Z (List.map (fun p => Z.of_nat (length p)) ps) =
  Z.of_nat (length (concat ps)).
Proof.
  induction ps as [|p ps IH]; simpl; [reflexivity|].
  rewrite IH, length_app. lia.
Qed.

(** X6. Through a LogResponseWriter set in front of a recorder, whatever the
    sequence of Write and WriteHeader calls, the body of the recorder gains
    the bytes of the writes, in order, and Size() is the number of bytes
    gained, as long as that number is an int. *)
Theorem X6_size_is_bytes_gained (rw : httptest.ResponseRecorder) (calls : list call) :
  (Z.of_nat (length (concat (written calls))) <= GoInt.max_int)%Z ->
  let w := fst (runCalls (logwriter.NewLogResponseWriter rw) calls) in
  httptest.Body (logwriter.ResponseWriter w) = httptest.Body rw ++ concat (written calls)
  /\ logwriter.Size w =
       Z.of_nat (length (httptest.Body (logwriter.ResponseWriter w))
                 - length (httptest.Body rw)).
Proof.
  intros Hfits. cbv zeta. rewrite runCalls_wrapped. simpl.
  destruct (recorder_runCalls calls rw) as [Hrets Hbody].
  split; [exact Hbody|].
  rewrite Hbody, Hrets, length_app.
  replace (length (httptest.Body rw) + length (concat (written calls))
           - length (httptest.Body rw))%nat
    with (length (concat (written calls))) by lia.
  rewrite List.map_map. simpl.
  change (fold_left GoInt.add ?l 0%Z) with (GoInt.sum l).
  rewrite sum_wrap, total_lengths. apply wrap_in_range.
  unfold GoInt.in_range, GoInt.min_int, GoInt.max_int in *. lia.
Qed.

(** X6 on two writes around a WriteHeader. *)
Lemma X6_size_is_bytes_gained_witness :
  logwriter.Size
    (fst (runCalls (logwriter.NewLogResponseWriter httptest.NewRecorder)
            [ CallWrite (bytes_of "ab"); CallWriteHeader 404; CallWrite (bytes_of "c") ]))
  = 3%Z.
Proof.
  destruct (X6_size_is_bytes_gained httptest.NewRecorder
              [ CallWrite (bytes_of "ab"); CallWriteHeader 404; CallWrite (bytes_of "c") ])
    as [_ Hsize].
  - vm_compute. discriminate.
  - exact Hsize.
Defined.

(** ** The dispatch wrapper beyond the no-match path *)

Lemma lastStatus_writes (calls : list call) (current : Z) :
  Forall (fun c => exists p, c = CallWrite p) calls -> lastStatus calls current = current.
Proof.
  induction 1 as [|c calls [p ->] _ IH]; simpl; [reflexivity|exact IH].
Qed.

Lemma requiredCalls_take (matcher : APIMatcher) (segs : list string) :
  requiredCalls matcher (take (length matcher) segs) = requiredCalls matcher segs.
Proof.
  revert segs. induction matcher as [|m matcher IH]; intros segs; [reflexivity|].
  destruct segs as [|s segs]; [reflexivity|]. simpl.
  rewrite IH. reflexivity.
Qed.

Section WrapperProperties.
Variable MatchString : string -> string -> bool * option error.


Section OnAnyWriter.
Context {W : Type} `{http.ResponseWriter W}.

(** X7. When the matcher accepts the request, the wrapper is transparent for
    a handler that makes a sequence of calls on its response writer: the
    writer of the request receives the HSTS header when TLS is on, the
    security headers, then exactly the calls of the handler; and the log
    gains one entry at info level whose code is the argument of the last
    WriteHeader of the handler, 0 when the handler never called it, and whose
    size is the sum of the byte counts its writes returned. *)
Theorem X7_wrapper_runs_handler (rr : REST) (method route : string)
    (script : http.Request -> Params -> list call) (matcher : APIMatcher)
    (w : W) (r : http.Request) (ps : Params) (elapsed : Z) :
  match_ MatchString route matcher r = Returns true ->
  let served := runCalls (writeHeaders rr (addHSTS rr w) r route) (script r ps) in
  wrapper MatchString rr method route (scriptHandler script) matcher w r ps elapsed =
    Returns
      (fst served,
       withLogger rr
         (emit (rlogger rr)
            (hit zap.InfoLevel method (http.RequestURI r) (http.RemoteAddr r)
               (lastStatus (script r ps) 0)
               (GoInt.sum (List.map fst (snd served))) elapsed)))
  /\ (Forall (fun c => exists p, c = CallWrite p) (script r ps) ->
      lastStatus (script r ps) 0 = 0%Z).
Proof.
  intros Hyes. cbv zeta. split; [|apply lastStatus_writes].
  unfold wrapper. cbv zeta. rewrite Hyes. unfold obind, scriptHandler.
  rewrite runCalls_wrapped. reflexivity.
Qed.


End OnAnyWriter.

(** X9. match looks at no more segments than the matcher list has patterns:
    two requests whose paths have a segment for every pattern and agree on
    these segments get the same result from the same calls, whatever follows
    in either path and whatever stands before its first slash. *)
Theorem X9_match_reads_matched_segments (route route' : string) (matcher : APIMatcher)
    (r r' : http.Request) :
  (length matcher <= length (segments r))%nat ->
  take (length matcher) (segments r) = take (length matcher) (segments r') ->
  matchTraced MatchString route matcher r = matchTraced MatchString route' matcher r'.
Proof.
  intros Hlen Htake.
  assert (Hlen' : (length matcher <= length (segments r'))%nat).
  { apply (f_equal length) in Htake. rewrite !length_take in Htake. lia. }
  unfold matchTraced. destruct (decide (length matcher = 0%nat)); [reflexivity|].
  destruct (Split_segments r) as [first Hsplit].
  destruct (Split_segments r') as [first' Hsplit'].
  rewrite Hsplit, Hsplit'.
  rewrite !matchFrom_shortCircuit by assumption.
  change (drop 1 (first :: segments r)) with (segments r).
  change (drop 1 (first' :: segments r')) with (segments r').
  rewrite <- (requiredCalls_take matcher (segments r)), Htake, requiredCalls_take.
  reflexivity.
Qed.

End WrapperProperties.

(** X7 on a handler that writes a body and never calls WriteHeader: the
    response goes out with status 200 and the access log records code 0. *)
Lemma X7_wrapper_runs_handler_witness :
  exists w rr,
    wrapper literalMatchString sampleREST "GET" "/items/:id"
      (scriptHandler (fun _ _ => [ CallWrite (bytes_of "ok") ])) [ "items"; "" ]
      httptest.NewRecorder (sampleRequest "/items/7") [] 12 = Returns (w, rr)
    /\ httptest.Code w = 200%Z
    /\ logger (rlogger rr) =
         [ hit zap.InfoLevel "GET" "/items/7" "192.0.2.1:4000" 0 2 12 ].
Proof.
  destruct (X7_wrapper_runs_handler literalMatchString sampleREST "GET" "/items/:id"
              (fun _ _ => [ CallWrite (bytes_of "ok") ]) [ "items"; "" ]
              httptest.NewRecorder (sampleRequest "/items/7") [] 12)
    as [Hrun _].
  - reflexivity.
  - eexists. eexists. split; [exact Hrun|]. split; reflexivity.
Defined.


(** X9 on /items/42 and a longer path with the same first two segments. *)
Lemma X9_match_reads_matched_segments_witness :
  matchTraced literalMatchString "/items/:id" [ "items"; "" ] (sampleRequest "/items/42") =
  matchTraced literalMatchString "/items/:id" [ "items"; "" ]
    (sampleRequest "x/items/42/more/segments").
Proof.
  apply X9_match_reads_matched_segments.
  - simpl. lia.
  - reflexivity.
Defined.

(** ** Response headers *)




Section UnmatchedHeaders.
Variable MatchString : string -> string -> bool * option error.

(** X11. The 400 response of the dispatch wrapper goes out without any of the
    security and CORS headers and without a Content-Type: the headers sent
    are the Strict-Transport-Security header alone when TLS is on, and none
    otherwise. *)
Theorem X11_unmatched_response_headers (rr : REST) (method route : string)
    (handler : APIHandler) (matcher : APIMatcher) (r : http.Request) (ps : Params)
    (elapsed : Z) :
  match_ MatchString route matcher r = Returns false ->
  exists w rr',
    wrapper MatchString rr method route handler matcher httptest.NewRecorder r ps elapsed =
      Returns (w, rr')
    /\ httptest.Result w =
         (if tls rr then
            {[ "Strict-Transport-Security" := [ "max-age=31536000; includeSubDomains" ] ]}
          else ∅)
    /\ (forall key, In key securityHeaders -> httptest.Result w !! key = None)
    /\ httptest.Result w !! "Content-Type" = None.
Proof.
  intros Hno. unfold wrapper. cbv zeta. rewrite Hno. unfold obind.
  eexists. eexists. split; [reflexivity|].
  unfold BadRequest, http.StatusBadRequest.
  destruct (recorder_ErrorResponse (addHSTS rr httptest.NewRecorder) 400
              "route does not match") as (_ & _ & Hsent).
  assert (Hfresh : httptest.wroteHeader (addHSTS rr httptest.NewRecorder) = false)
    by (unfold addHSTS; destruct (tls rr); reflexivity).
  destruct (Hsent Hfresh) as [_ ->].
  unfold addHSTS. destruct (tls rr).
  - split; [reflexivity|]. split; [|reflexivity].
    intros key Hin. unfold securityHeaders in Hin. simpl in Hin.
    repeat (destruct Hin as [<-|Hin]; [reflexivity|]). destruct Hin.
  - split; [reflexivity|]. split; [|reflexivity].
    intros key _. apply lookup_empty.
Qed.

End UnmatchedHeaders.

(** X11 on the sample route and a path its matcher rejects. *)
Lemma X11_unmatched_response_headers_witness :
  exists w rr',
    wrapper literalMatchString sampleREST "GET" "/items/:id" sampleHandler
      [ "items"; "" ] httptest.NewRecorder (sampleRequest "/users/7") [] 12 =
      Returns (w, rr')
    /\ httptest.Result w = ∅.
Proof.
  destruct (X11_unmatched_response_headers literalMatchString sampleREST "GET"
              "/items/:id" sampleHandler [ "items"; "" ] (sampleRequest "/users/7") [] 12)
    as (w & rr' & Hrun & Hres & _).
  - reflexivity.
  - exists w, rr'. split; [exact Hrun|exact Hres].
Defined.

(** X12. The not-found and method-not-allowed handlers of the router answer,
    on a fresh response, with status 404 and 405 and the standard envelope of
    that status, send no header at all, TLS or not, and add to the log one
    entry at info level, not error, under the method and the URI of the
    request, with the status as code and with size 0 although the envelope
    was written to the body. *)
Theorem X12_fallback_handlers (rr : REST) (r : http.Request) (elapsed : Z) :
  let notFound := serveFallback rr notFoundLogged httptest.NewRecorder r elapsed in
  let notAllowed :=
    serveFallback rr methodNotAllowedLogged httptest.NewRecorder r elapsed in
  (httptest.Code (fst notFound) = 404%Z
   /\ httptest.Body (fst notFound) = json.encode (standardEnvelope 404)
   /\ httptest.Result (fst notFound) = ∅
   /\ snd notFound =
        withLogger rr
          (emit (rlogger rr)
             (hit zap.InfoLevel (http.Method r) (http.RequestURI r) (http.RemoteAddr r)
                404 0 elapsed)))
  /\ (httptest.Code (fst notAllowed) = 405%Z
      /\ httptest.Body (fst notAllowed) = json.encode (standardEnvelope 405)
      /\ httptest.Result (fst notAllowed) = ∅
      /\ snd notAllowed =
           withLogger rr
             (emit (rlogger rr)
                (hit zap.InfoLevel (http.Method r) (http.RequestURI r)
                   (http.RemoteAddr r) 405 0 elapsed)))
  /\ httptest.Body (fst notFound) <> []
  /\ httptest.Body (fst notAllowed) <> [].
Proof.
  cbv zeta. repeat apply conj; try reflexivity; discriminate.
Qed.

(** ** The route registry, both ways *)

Section InstallLoopConverse.
Context {A : Type}.
Variable key : A -> string * string.
Variable handle : A -> Handle.
Variable step : httprouter.Router * Logging -> A -> outcome (httprouter.Router * Logging).
Hypothesis step_installs :
  forall st a,
    exists l,
      step st a =
        (router <-! httprouter.Handle (fst st) (fst (key a)) (snd (key a)) (handle a);
         Returns (router, l)).

(** Whatever the table holds after the loop was there before or was installed
    by the loop. *)
Lemma install_loop_domain (l : list A) (st st' : httprouter.Router * Logging) :
  forEach step l st = Returns st' ->
  forall k h,
    httprouter.handles (fst st') !! k = Some h ->
    httprouter.handles (fst st) !! k = Some h
    \/ exists a, In a l /\ key a = k /\ handle a = h.
Proof.
  revert st. induction l as [|a l IH]; intros st Hrun k h Hk; simpl in Hrun.
  - injection Hrun as <-. left. exact Hk.
  - destruct (step_installs st a) as [lg Hstep]. rewrite Hstep in Hrun.
    unfold httprouter.Handle in Hrun.
    destruct (key a) as [method path] eqn:Hkey. simpl in Hrun.
    destruct (httprouter.handles (fst st) !! (method, path)) eqn:Hfree; [discriminate|].
    simpl in Hrun. destruct (IH _ Hrun k h Hk) as [Hin|(b & Hb & Hkb & Hhb)].
    + simpl in Hin. destruct (decide ((method, path) = k)) as [<-|Hne].
      * rewrite lookup_insert_eq in Hin. injection Hin as <-.
        right. exists a. split; [left; reflexivity|]. split; [exact Hkey|reflexivity].
      * rewrite lookup_insert_ne in Hin by exact Hne. left. exact Hin.
    + right. exists b. split; [right; exact Hb|]. split; assumption.
Qed.


End InstallLoopConverse.

Lemma installRoute_installs (st : httprouter.Router * Logging)
    (t : string * string * APIEndpoint) :
  exists l,
    installRoute (fst (fst t)) st (snd (fst t), snd t) =
      (router <-! httprouter.Handle (fst st) (fst (fst t)) (snd (fst t))
                    (routeWrapper (fst (fst t)) (snd (fst t)) (Handler (snd t))
                       (Matcher (snd t)));
       Returns (router, l)).
Proof. eexists. reflexivity. Qed.

Lemma installOptions_installs (st : httprouter.Router * Logging) (route : string) :
  exists l,
    installOptions st route =
      (router <-! httprouter.Handle (fst st) "OPTIONS" route
                    (optionsWrapper route "OPTIONS");
       Returns (router, l)).
Proof. eexists. reflexivity. Qed.

(** The routes the third loop of [SetupRouter] visits are the registered
    ones, each once. *)
Lemma optionRoutes_spec (routes : Routes) :
  NoDup (List.map fst (map_to_list (buildOptionsMappings routes)))
  /\ forall route,
       In route (List.map fst (map_to_list (buildOptionsMappings routes))) <->
       exists method endpoint, In (method, route, endpoint) (registered routes).
Proof.
  split.
  - change (List.map fst (map_to_list (buildOptionsMappings routes)))
      with ((map_to_list (buildOptionsMappings routes)).*1).
    apply NoDup_fst_map_to_list.
  - intros route. rewrite in_map_iff. split.
    + intros ([route' methods] & <- & Hin). simpl.
      apply list_elem_of_In, elem_of_map_to_list in Hin.
      rewrite buildOptionsMappings_lookup in Hin.
      destruct (methodsOf routes route') as [|m ms] eqn:Hms; [discriminate|].
      assert (Hm : In m (methodsOf routes route')) by (rewrite Hms; left; reflexivity).
      apply methodsOf_spec in Hm as [ep Hep]. exists m, ep. exact Hep.
    + intros (method & ep & Hin).
      assert (Hm : In method (methodsOf routes route))
        by (apply methodsOf_spec; exists ep; exact Hin).
      pose proof (buildOptionsMappings_lookup routes route) as Hlook.
      destruct (methodsOf routes route) as [|m0 ms]; [destruct Hm|].
      exists (route, m0 :: ms). split; [reflexivity|].
      apply list_elem_of_In, elem_of_map_to_list. exact Hlook.
Qed.

(** All of a returning [SetupRouter]: the two loops and the object it
    leaves. *)
Lemma SetupRouter_run (rr0 rr : REST) (routes : Routes) :
  SetupRouter rr0 routes = Returns rr <->
  exists st2 st3,
    forEach (fun st t => installRoute (fst (fst t)) st (snd (fst t), snd t))
      (registered routes) (httprouter.New, rlogger rr0) = Returns st2
    /\ forEach installOptions
         (List.map fst (map_to_list (buildOptionsMappings routes))) st2 = Returns st3
    /\ rr =
         withRouter
           (withLogger (withOptionsMappings rr0 (buildOptionsMappings routes)) (snd st3))
           {| httprouter.handles := httprouter.handles (fst st3);
              httprouter.NotFound := Some notFoundLogged;
              httprouter.MethodNotAllowed := Some methodNotAllowedLogged |}.
Proof.
  unfold SetupRouter. cbv zeta. rewrite installRoutes_flat.
  change (rlogger (withOptionsMappings rr0 (buildOptionsMappings routes)))
    with (rlogger rr0).
  change (optionsMappings (withOptionsMappings rr0 (buildOptionsMappings routes)))
    with (buildOptionsMappings routes).
  split.
  - destruct (forEach _ (registered routes) _) as [st2|p] eqn:Hloop2; [|discriminate].
    unfold obind at 1.
    destruct (forEach installOptions _ st2) as [st3|p] eqn:Hloop3; [|discriminate].
    unfold obind. intros Hrr. injection Hrr as <-. exists st2, st3.
    split; [reflexivity|]. split; [exact Hloop3|reflexivity].
  - intros (st2 & st3 & -> & Hloop3 & ->). unfold obind at 1. rewrite Hloop3.
    reflexivity.
Qed.




(** The handler table of a returning [SetupRouter], key by key. *)
Lemma SetupRouter_handles (rr0 rr : REST) (routes : Routes) :
  SetupRouter rr0 routes = Returns rr ->
  exists table,
    router rr = Some table
    /\ httprouter.NotFound table = Some notFoundLogged
    /\ httprouter.MethodNotAllowed table = Some methodNotAllowedLogged
    /\ (forall method route h,
          httprouter.handles table !! (method, route) = Some h <->
          (exists endpoint,
              In (method, route, endpoint) (registered routes)
              /\ h = routeWrapper method route (Handler endpoint) (Matcher endpoint))
          \/ (method = "OPTIONS"
              /\ (exists m endpoint, In (m, route, endpoint) (registered routes))
              /\ h = optionsWrapper route "OPTIONS")).
Proof.
  intros Hsetup.
  destruct (SetupRouter_table _ _ _ Hsetup) as (table0 & Htable0 & _ & _ & Hall).
  apply SetupRouter_run in Hsetup as (st2 & st3 & Hloop2 & Hloop3 & ->).
  eexists. split; [reflexivity|]. split; [reflexivity|]. split; [reflexivity|].
  simpl in Htable0. injection Htable0 as <-. simpl in Hall |- *.
  intros method route h. split.
  - intros Hh.
    destruct (install_loop_domain (fun route => ("OPTIONS", route))
                (fun route => optionsWrapper route "OPTIONS") installOptions
                installOptions_installs _ _ _ Hloop3 _ _ Hh)
      as [Hin2|(route' & Hroute & Hkey & Hhandle)].
    + destruct (install_loop_domain (fun t => fst t)
                  (fun t => routeWrapper (fst (fst t)) (snd (fst t))
                              (Handler (snd t)) (Matcher (snd t)))
                  (fun st t => installRoute (fst (fst t)) st (snd (fst t), snd t))
                  installRoute_installs _ _ _ Hloop2 _ _ Hin2)
        as [Hempty|([[m r] ep] & Hin & Hkey & Hhandle)].
      * simpl in Hempty. rewrite lookup_empty in Hempty. discriminate.
      * simpl in Hkey, Hhandle. injection Hkey as -> ->. left. exists ep.
        split; [exact Hin|symmetry; exact Hhandle].
    + injection Hkey as <- <-. right. split; [reflexivity|].
      split; [|symmetry; exact Hhandle].
      apply (proj2 (optionRoutes_spec routes)). exact Hroute.
  - intros [(ep & Hin & ->)|(-> & (m & ep & Hin) & ->)].
    + apply (Hall _ _ _ Hin).
    + apply (Hall _ _ _ Hin).
Qed.

(** X13. The handler table a returning SetupRouter leaves holds, under a
    method and a route, the dispatch wrapper of a triple registered under
    them, or, under OPTIONS and a registered route, the synthesized handler
    of the route, and nothing else; the not-found and method-not-allowed
    handlers are installed. The handler table and the options-mapping table
    depend on the routes alone, not on the object SetupRouter is called on,
    whose address, certificates and TLS state are left as they were. *)
Theorem X13_handler_table (rr0 rr : REST) (routes : Routes) :
  SetupRouter rr0 routes = Returns rr ->
  exists table,
    router rr = Some table
    /\ httprouter.NotFound table = Some notFoundLogged
    /\ httprouter.MethodNotAllowed table = Some methodNotAllowedLogged
    /\ (forall method route h,
          httprouter.handles table !! (method, route) = Some h <->
          (exists endpoint,
              In (method, route, endpoint) (registered routes)
              /\ h = routeWrapper method route (Handler endpoint) (Matcher endpoint))
          \/ (method = "OPTIONS"
              /\ (exists m endpoint, In (m, route, endpoint) (registered routes))
              /\ h = optionsWrapper route "OPTIONS"))
    /\ (forall rr0' rr',
          SetupRouter rr0' routes = Returns rr' ->
          router rr' = router rr /\ optionsMappings rr' = optionsMappings rr)
    /\ ipPort rr = ipPort rr0 /\ tls rr = tls rr0
    /\ tlsCer rr = tlsCer rr0 /\ tlsKey rr = tlsKey rr0 /\ tlsCACert rr = tlsCACert rr0
    /\ requireClientCert rr = requireClientCert rr0.
Proof.
  intros Hsetup.
  destruct (SetupRouter_handles _ _ _ Hsetup) as (table & Htable & Hnf & Hmna & Hspec).
  exists table. split; [exact Htable|]. split; [exact Hnf|]. split; [exact Hmna|].
  split; [exact Hspec|]. split.
  { intros rr0' rr' Hsetup'.
    destruct (SetupRouter_handles _ _ _ Hsetup') as (table' & Htable' & Hnf' & Hmna' & Hspec').
    destruct (SetupRouter_table _ _ _ Hsetup) as (_ & _ & Hom & _).
    destruct (SetupRouter_table _ _ _ Hsetup') as (_ & _ & Hom' & _).
    split; [|rewrite Hom, Hom'; reflexivity].
    rewrite Htable, Htable'. f_equal.
    destruct table as [handles nf mna], table' as [handles' nf' mna']. simpl in *.
    subst nf mna nf' mna'. f_equal.
    apply map_eq. intros [method route]. apply option_eq. intros h.
    rewrite Hspec, Hspec'. reflexivity. }
  apply SetupRouter_run in Hsetup as (st2 & st3 & _ & _ & ->).
  repeat split; reflexivity.
Qed.

(** X13 on the sample table: DELETE has no handle, OPTIONS has the
    synthesized one. *)
Lemma X13_handler_table_witness :
  exists rr table,
    SetupRouter sampleREST sampleRoutes = Returns rr
    /\ router rr = Some table
    /\ httprouter.handles table !! ("DELETE", "/items/:id") = None
    /\ httprouter.handles table !! ("OPTIONS", "/items/:id") =
         Some (optionsWrapper "/items/:id" "OPTIONS").
Proof.
  destruct (SetupRouter sampleREST sampleRoutes) as [rr|p] eqn:Hsetup;
    [|vm_compute in Hsetup; discriminate].
  destruct (X13_handler_table sampleREST rr sampleRoutes Hsetup)
    as (table & Htable & _ & _ & Hspec & _).
  exists rr, table. split; [reflexivity|]. split; [exact Htable|]. split.
  - destruct (httprouter.handles table !! ("DELETE", "/items/:id")) as [h|] eqn:Hh;
      [|reflexivity].
    apply Hspec in Hh as [(ep & Hin & _)|(Hm & _)]; [|discriminate].
    simpl in Hin. destruct Hin as [Hin|[Hin|[]]]; discriminate.
  - apply Hspec. right. split; [reflexivity|]. split; [|reflexivity].
    exists "GET", sampleEndpoint. simpl. left. reflexivity.
Defined.



(** ** What SetupRouter logs *)

Lemma installRoutes_log (l : list (string * string * APIEndpoint))
    (st st' : httprouter.Router * Logging) :
  forEach (fun st t => installRoute (fst (fst t)) st (snd (fst t), snd t)) l st =
    Returns st' ->
  logger (snd st') = logger (snd st) ++ List.map routeAdded l
  /\ debug (snd st') = debug (snd st).
Proof.
  revert st. induction l as [|t l IH]; intros st Hrun; simpl in Hrun.
  - injection Hrun as <-. rewrite app_nil_r. split; reflexivity.
  - unfold installRoute in Hrun at 1. cbv zeta in Hrun.
    destruct (httprouter.Handle (fst st) _ _ _) as [rt|p]; [|discriminate].
    simpl in Hrun. apply IH in Hrun as [Hlog Hdebug]. simpl in Hlog, Hdebug.
    split; [|exact Hdebug]. rewrite Hlog, <- app_assoc. reflexivity.
Qed.

Lemma installOptions_log (l : list string) (st st' : httprouter.Router * Logging) :
  forEach installOptions l st = Returns st' ->
  logger (snd st') = logger (snd st) ++ List.map optionsAdded l
  /\ debug (snd st') = debug (snd st).
Proof.
  revert st. induction l as [|route l IH]; intros st Hrun; simpl in Hrun.
  - injection Hrun as <-. rewrite app_nil_r. split; reflexivity.
  - unfold installOptions in Hrun at 1. cbv zeta in Hrun.
    destruct (httprouter.Handle (fst st) _ _ _) as [rt|p]; [|discriminate].
    simpl in Hrun. apply IH in Hrun as [Hlog Hdebug]. simpl in Hlog, Hdebug.
    split; [|exact Hdebug]. rewrite Hlog, <- app_assoc. reflexivity.
Qed.

(** X15. A returning SetupRouter keeps the log entries it found and adds,
    at info level and with the message HTTP route added, one entry per
    registered (method, route) pair, in the order the routes are visited,
    with the matcher patterns joined by commas, and then one entry per
    distinct registered route for its OPTIONS handler. *)
Theorem X15_SetupRouter_log (rr0 rr : REST) (routes : Routes) :
  SetupRouter rr0 routes = Returns rr ->
  exists optionRoutes,
    logger (rlogger rr) =
      logger (rlogger rr0) ++ List.map routeAdded (registered routes)
      ++ List.map optionsAdded optionRoutes
    /\ NoDup optionRoutes
    /\ (forall route,
          In route optionRoutes <->
          exists method endpoint, In (method, route, endpoint) (registered routes))
    /\ debug (rlogger rr) = debug (rlogger rr0).
Proof.
  intros Hsetup. apply SetupRouter_run in Hsetup as (st2 & st3 & Hloop2 & Hloop3 & ->).
  apply installRoutes_log in Hloop2 as [Hlog2 Hdebug2].
  apply installOptions_log in Hloop3 as [Hlog3 Hdebug3].
  exists (List.map fst (map_to_list (buildOptionsMappings routes))).
  destruct (optionRoutes_spec routes) as [Hnodup Hin].
  simpl in *. split; [|split; [exact Hnodup|split; [exact Hin|]]].
  - rewrite Hlog3, Hlog2, <- app_assoc. reflexivity.
  - rewrite Hdebug3, Hdebug2. reflexivity.
Qed.

(** X15 on the sample table: two routes and one OPTIONS handler. *)
Lemma X15_SetupRouter_log_witness :
  exists rr,
    SetupRouter sampleREST sampleRoutes = Returns rr
    /\ logger (rlogger rr) =
         [ routeAdded ("GET", "/items/:id", sampleEndpoint);
           routeAdded ("PUT", "/items/:id", sampleEndpoint);
           optionsAdded "/items/:id" ].
Proof.
  destruct (SetupRouter sampleREST sampleRoutes) as [rr|p] eqn:Hsetup;
    [|vm_compute in Hsetup; discriminate].
  destruct (X15_SetupRouter_log sampleREST rr sampleRoutes Hsetup)
    as (optionRoutes & Hlog & Hnodup & Hin & _).
  exists rr. split; [reflexivity|]. rewrite Hlog. simpl. f_equal. f_equal.
  assert (Hitem : In "/items/:id" optionRoutes).
  { apply Hin. exists "GET", sampleEndpoint. simpl. left. reflexivity. }
  assert (Honly : forall route, In route optionRoutes -> route = "/items/:id").
  { intros route Hroute. apply Hin in Hroute as (m & ep & Hreg). simpl in Hreg.
    destruct Hreg as [Hreg|[Hreg|[]]]; injection Hreg as _ <- _; reflexivity. }
  destruct optionRoutes as [|a [|b rest]].
  - destruct Hitem.
  - rewrite (Honly a) by (left; reflexivity). reflexivity.
  - exfalso. apply NoDup_cons in Hnodup as [Hnew _]. apply Hnew.
    rewrite (Honly a) by (left; reflexivity).
    rewrite (Honly b) by (right; left; reflexivity). left.
Defined.

(** ** Start and the transport *)

(** The OPTIONS handler sends the HSTS header exactly when [rr.tls] is
    set. *)
Lemma optionsHandler_HSTS (rr : REST) (route : string) (r : http.Request) (ps : Params)
    (elapsed : Z) :
  http.Values
    (httptest.Result (fst (optionsHandler rr route "OPTIONS" httptest.NewRecorder r ps elapsed)))
    "Strict-Transport-Security" =
    if tls rr then [ "max-age=31536000; includeSubDomains" ] else [].
Proof.
  unfold optionsHandler, addHSTS.
  destruct (tls rr);
    cbv [fst logwriter.ResponseWriter logwriter.WriteHeader
         logwriter.NewLogResponseWriter writeHeaders http.HeaderAdd http.GetHeader
         http.withHeader logwriter.log_writer httptest.recorder_writer
         http.WriteHeader httptest.WriteHeader httptest.NewRecorder
         httptest.wroteHeader httptest.HeaderMap httptest.Result
         httptest.snapHeader http.StatusOK];
    rewrite !Values_Add_ne by discriminate; [rewrite Values_Add_eq|]; reflexivity.
Qed.

Section StartProperties.
Variable Certificate : Type.
Variable X509KeyPair : bytes -> bytes -> Certificate + error.
Variable ListenAndServe : Server Certificate -> option error.
Variable ListenAndServeTLS : Server Certificate -> option error.

(** X16. Start serves over TLS exactly when the certificate, the key and the
    CA certificate are all non-empty: with any of them empty, a certificate
    and a key included, it serves plain HTTP without a TLS configuration and
    leaves the TLS state as it was. With all three it switches the TLS state
    on before it loads the key pair, so that the state stays on when the key
    pair is refused and Start returns that error without serving; otherwise
    it serves with TLS 1.2 as minimum version, the CA certificate as client
    pool, client certificates required exactly when asked for, and the
    protocols h2 and http/1.1. The server gets the address and the handler
    table of the object, which Start changes in its TLS state alone. The
    OPTIONS handlers send the HSTS header afterwards exactly when the three
    were given, on an object whose TLS state was off. *)
Theorem X16_Start_transport (rr : REST) :
  let out := Start Certificate X509KeyPair ListenAndServe ListenAndServeTLS rr in
  let rr' := fst (fst out) in
  let server := snd (fst out) in
  let err := snd out in
  let material := tlsCer rr <> [] /\ tlsKey rr <> [] /\ tlsCACert rr <> [] in
  Addr server = ipPort rr
  /\ ServerHandler server = router rr
  /\ MaxHeaderBytes server = 1048576%Z
  /\ rr' = withTLS rr (tls rr')
  /\ (material ->
      tls rr' = true
      /\ match X509KeyPair (tlsCer rr) (tlsKey rr) with
         | inr e => err = Some e /\ TLSConfig server = None
         | inl certificate =>
             err = ListenAndServeTLS server
             /\ exists config,
                  TLSConfig server = Some config
                  /\ tls.Certificates config = [ certificate ]
                  /\ tls.MinVersion config = tls.VersionTLS12
                  /\ tls.ClientCAs config = tlsCACert rr
                  /\ (tls.ClientAuth config = tls.RequireAndVerifyClientCert <->
                      requireClientCert rr = true)
                  /\ tls.NextProtos config = [ "h2"; "http/1.1" ]
         end)
  /\ (~ material ->
      tls rr' = tls rr /\ TLSConfig server = None /\ err = ListenAndServe server)
  /\ (tls rr = false ->
      forall route r ps elapsed,
        (material ->
         http.Values
           (httptest.Result
              (fst (optionsHandler rr' route "OPTIONS" httptest.NewRecorder r ps elapsed)))
           "Strict-Transport-Security" = [ "max-age=31536000; includeSubDomains" ])
        /\ (~ material ->
            http.Values
              (httptest.Result
                 (fst (optionsHandler rr' route "OPTIONS" httptest.NewRecorder r ps elapsed)))
              "Strict-Transport-Security" = [])).
Proof.
  cbv zeta.
  assert (Hcond : ((0 <? length (tlsCer rr)) && (0 <? length (tlsKey rr))
                   && (0 <? length (tlsCACert rr)))%nat = true <->
                  tlsCer rr <> [] /\ tlsKey rr <> [] /\ tlsCACert rr <> []).
  { destruct (tlsCer rr), (tlsKey rr), (tlsCACert rr); simpl; split;
      try discriminate; try reflexivity; try (intros (? & ? & ?); contradiction).
    intros _. repeat split; discriminate. }
  unfold Start. cbv zeta.
  destruct ((0 <? length (tlsCer rr)) && (0 <? length (tlsKey rr))
            && (0 <? length (tlsCACert rr)))%nat eqn:Hmat.
  - assert (Hyes : tlsCer rr <> [] /\ tlsKey rr <> [] /\ tlsCACert rr <> [])
      by (apply Hcond; reflexivity).
    change (tlsCer (withTLS rr true)) with (tlsCer rr).
    change (tlsKey (withTLS rr true)) with (tlsKey rr).
    destruct (X509KeyPair (tlsCer rr) (tlsKey rr)) as [certificate|e]; cbn [fst snd].
    + split; [reflexivity|]. split; [reflexivity|]. split; [reflexivity|].
      split; [reflexivity|]. split.
      { intros _. split; [reflexivity|]. split; [reflexivity|].
        eexists. split; [reflexivity|]. simpl.
        repeat split; try reflexivity; destruct (requireClientCert rr);
          try reflexivity; discriminate. }
      split; [intros Hno; contradiction|].
      intros Hoff route r ps elapsed. rewrite optionsHandler_HSTS.
      split; [reflexivity|intros Hno; contradiction].
    + split; [reflexivity|]. split; [reflexivity|]. split; [reflexivity|].
      split; [reflexivity|]. split.
      { intros _. split; [reflexivity|]. split; reflexivity. }
      split; [intros Hno; contradiction|].
      intros Hoff route r ps elapsed. rewrite optionsHandler_HSTS.
      split; [reflexivity|intros Hno; contradiction].
  - assert (Hno : ~ (tlsCer rr <> [] /\ tlsKey rr <> [] /\ tlsCACert rr <> [])).
    { intros Hyes. apply Hcond in Hyes. congruence. }
    cbn [fst snd].
    split; [reflexivity|]. split; [reflexivity|]. split; [reflexivity|].
    split; [destruct rr; reflexivity|]. split; [intros Hyes; contradiction|].
    split; [intros _; repeat split; reflexivity|].
    intros Hoff route r ps elapsed. rewrite optionsHandler_HSTS, Hoff.
    split; [intros Hyes; contradiction|reflexivity].
Qed.

End StartProperties.

(** X16 on an object given a certificate and a key and no CA certificate:
    plain HTTP. *)
Lemma X16_Start_transport_witness :
  let rr := New ":8443" (bytes_of "cert") (bytes_of "key") [] true
              {| debug := false; logger := [] |} in
  let out := Start unit (fun _ _ => inl tt) (fun _ => None) (fun _ => None) rr in
  tls (fst (fst out)) = false /\ TLSConfig (snd (fst out)) = None.
Proof.
  cbv zeta.
  destruct (X16_Start_transport unit (fun _ _ => inl tt) (fun _ => None) (fun _ => None)
              (New ":8443" (bytes_of "cert") (bytes_of "key") [] true
                 {| debug := false; logger := [] |}))
    as (_ & _ & _ & _ & _ & Hplain & _).
  destruct Hplain as (Htls & Hconfig & _).
  - intros (_ & _ & Hca). apply Hca. reflexivity.
  - split; [exact Htls|exact Hconfig].
Defined.

(** ** The OPTIONS handler and ResponseErr *)




(** X18. ResponseErr with an error answers as Response does with that error,
    whatever payload, status and location Response is given, on every
    response writer. With no error it writes, on a fresh response, status 200
    with the JSON content type, no Location and an empty body, and returns
    200. *)
Theorem X18_ResponseErr (e : error) (payload : option json.value)
    (desiredStatus : Z) (location : string) :
  (forall (W : Type) (writer : http.ResponseWriter W) (w : W),
      ResponseErr w (Some e) = Response w payload (Some e) desiredStatus location)
  /\ (let out := ResponseErr httptest.NewRecorder None in
      snd (fst out) = 200%Z
      /\ snd out = []
      /\ httptest.Code (fst (fst out)) = 200%Z
      /\ httptest.Body (fst (fst out)) = []
      /\ httptest.Result (fst (fst out)) !! "Content-Type" =
           Some [ "application/json; charset=utf-8" ]
      /\ httptest.Result (fst (fst out)) !! "Location" = None).
Proof.
  split.
  - intros W writer w. apply Response_error_frame.
  - cbv zeta. repeat apply conj; reflexivity.
Qed.
